(** * SceneManager.cpp: texture and material tables, composite rotation, draw script

    A shallow embedding of [SceneManager.cpp] (CS-330 final project).

    Conventions of the embedding.
    - A C++ [float] is a real number: rounding is abstracted away ([cos] and
      [sin] are the real functions). A computed coordinate of the model can
      differ from the binary32 value of the program in its last digits, so
      the statements about coordinates are kept to what rounding does not
      touch: the structure of the computation, values that are exact in
      binary32 as well, and bounds with a margin far above the rounding
      error.
    - An [int] is an integer of [Z]; the counters and slots here stay far from
      its range, and the one unsigned value read as an [int] goes through
      [to_int32].
    - Calls into the collaborators the file does not define (OpenGL, stb_image,
      ShaderManager, ShapeMeshes, std::cout, glm) are recorded, in program
      order, in a log of [Call]s.
    - A method is a function in a state-and-fault monad over the object and the
      log; an access outside [m_textureIDs[16]] or through a NULL pointer is a
      [Fault]. *)

From Stdlib Require Import Reals Lra Lia ZArith.
From stdpp Require Import base list strings.
From Equations Require Import Equations.

Open Scope Z_scope.

(** ** Composite rotation of a position ([ucRot], [rotate]) *)

Module Rotation.
Open Scope R_scope.

(** The three [float*] arguments of [rotate], as one value. *)
Record Position : Type := mkPosition { xPos : R; yPos : R; zPos : R }.

(** [void ucRot(float hUc, float vUc, float* hP, float* vP)]: both new values
    are computed from the old [*hP] and [*vP], then stored. *)
Definition ucRot (hUc vUc : R) (p : R * R) : R * R :=
  let '(hP, vP) := p in
  let h := vP * - vUc + hP * hUc in
  let v := hP * vUc + vP * hUc in
  (h, v).

(** [void rotate(float* xPos, float* yPos, float* zPos, float x, float y, float z)],
    in exact arithmetic: the program rounds the angle in radians, the cosine,
    the sine and every product and sum to binary32. *)
Definition rotate (p : Position) (x y z : R) : Position :=
  let '(mkPosition xP yP zP) := p in
  let z := z * (3.14159 / 180.0) in
  let zh := cos z in
  let zv := sin z in
  let '(xP, yP) := ucRot zh zv (xP, yP) in
  let y := y * (3.14159 / 180.0) in
  let yh := cos (- y) in
  let yv := sin (- y) in
  let '(xP, zP) := ucRot yh yv (xP, zP) in
  let x := x * (3.14159 / 180.0) in
  let xh := cos x in
  let xv := sin x in
  let '(yP, zP) := ucRot xh xv (yP, zP) in
  mkPosition xP yP zP.

(** The contract in the words of the specification: a planar rotation of a
    coordinate pair by an angle, and the composite of three of them, the
    degree-to-radian factor [k] left open. *)
Definition planar_rotation (theta : R) (p : R * R) : R * R :=
  (fst p * cos theta - snd p * sin theta, fst p * sin theta + snd p * cos theta).

Definition rotate_spec (k : R) (p : Position) (x y z : R) : Position :=
  let xy := planar_rotation (z * k) (xPos p, yPos p) in
  let xz := planar_rotation ((- y) * k) (fst xy, zPos p) in
  let yz := planar_rotation (x * k) (snd xy, snd xz) in
  mkPosition (fst xz) (fst yz) (snd yz).

(** The angle that [rotate] hands to [cos] and [sin] for 90 degrees. *)
Definition quarter_turn : R := 90 * (3.14159 / 180.0).

End Rotation.

(** ** Data of the scene manager *)

(** [glm::vec3]. *)
Record vec3 : Type := glm_vec3 { vx : R; vy : R; vz : R }.

(** [glm::mat4] values are never inspected by this file: they are built by glm
    and handed to the shader manager, so they stay symbolic. *)
Inductive mat4 : Type :=
| glm_scale (v : vec3)
| glm_rotate (angle : R) (axis : vec3)
| glm_translate (v : vec3)
| mat4_mul (a b : mat4).

Definition glm_radians (degrees : R) : R := (degrees * (PI / 180))%R.

(** Modelled from the spec: [struct TEXTURE_INFO] is declared in
    SceneManager.h, which is not among the sources; the specification gives a
    texture entry as a name and a handle, and the code uses the fields [tag]
    and [ID]. The address of [ID] is passed to [glGenTextures], so the field
    is an unsigned 32-bit integer; the record keeps the integer the code
    stores (-1 at construction, then the OpenGL texture name), and the one
    place that reads the field into an [int], [FindTextureID], converts it
    with [to_int32]. *)
Module TEXTURE_INFO.
Record t : Type := mk { tag : string; ID : Z }.
End TEXTURE_INFO.

(** Modelled from the spec: [struct OBJECT_MATERIAL] is declared in
    SceneManager.h, which is not among the sources; the specification gives a
    material entry as a name, ambient colour, ambient strength, diffuse
    colour, specular colour and shininess, and the code uses these six
    fields. *)
Module OBJECT_MATERIAL.
Record t : Type := mk {
  ambientColor : vec3;
  ambientStrength : R;
  diffuseColor : vec3;
  specularColor : vec3;
  shininess : R;
  tag : string }.
End OBJECT_MATERIAL.

(** A pointer member is NULL or points to its live collaborator. *)
Inductive pointer : Type := NULL | Ptr.

(** Modelled from the spec: the members of [class SceneManager] are declared
    in SceneManager.h, which is not among the sources; these are the five the
    code uses. [m_textureIDs] is the array of sixteen texture entries that the
    constructor initialises (capacity fixed at 16 in the specification),
    [m_objectMaterials] the [std::vector] the materials are pushed onto. *)
Record SceneManager : Type := mkSceneManager {
  m_pShaderManager : pointer;
  m_basicMeshes : pointer;
  m_loadedTextures : Z;
  m_textureIDs : list TEXTURE_INFO.t;
  m_objectMaterials : list OBJECT_MATERIAL.t }.

(** [std::string::compare]: zero exactly on equal strings. *)
Definition compare (a b : string) : Z :=
  match String.compare a b with Eq => 0 | Lt => -1 | Gt => 1 end.

(** ** Calls into the collaborators *)

Inductive GLenum : Type :=
| GL_TEXTURE_2D | GL_TEXTURE_WRAP_S | GL_TEXTURE_WRAP_T | GL_REPEAT
| GL_TEXTURE_MIN_FILTER | GL_TEXTURE_MAG_FILTER | GL_LINEAR
| GL_RGB8 | GL_RGB | GL_RGBA8 | GL_RGBA | GL_UNSIGNED_BYTE
| GL_TEXTURE0_plus (i : Z).

Inductive Mesh : Type :=
| PlaneMesh | CylinderMesh | TaperedCylinderMesh | BoxMesh | SphereMesh
| ConeMesh | TorusMesh.

(** What [stbi_load] hands back for a file that decodes. *)
Record Image : Type := mkImage { width : Z; height : Z; colorChannels : Z }.

(** The three lines the file writes to [std::cout]. *)
Inductive LogLine : Type :=
| SuccessfullyLoadedImage (filename : string) (w h channels : Z)
| NotImplementedChannels (channels : Z)
| CouldNotLoadImage (filename : string).

Inductive Call : Type :=
| stbi_set_flip_vertically_on_load (flag : bool)
| stbi_load (filename : string)
| stbi_image_free
| cout (line : LogLine)
| glGenTextures (n : Z) (name : Z)
| glDeleteTextures (n : Z) (name : Z)
| glBindTexture (target : GLenum) (texture : Z)
| glTexParameteri (target pname param : GLenum)
| glTexImage2D (target : GLenum) (level : Z) (internalformat : GLenum)
    (w h border : Z) (format type : GLenum)
| glGenerateMipmap (target : GLenum)
| glActiveTexture (unit : GLenum)
| setMat4Value (name : string) (value : mat4)
| setIntValue (name : string) (value : Z)
| setBoolValue (name : string) (value : bool)
| setVec4Value (name : string) (r g b a : R)
| setSampler2DValue (name : string) (slot : Z)
| setVec2Value (name : string) (u v : R)
| setVec3Value (name : string) (value : vec3)
| setFloatValue (name : string) (value : R)
| new_ShapeMeshes
| delete_ShapeMeshes
| LoadMesh (m : Mesh)
| DrawMesh (m : Mesh).

(** ** The world a method runs in *)

(** Besides the object itself: the log of calls, what the image decoder
    returns for each file name, the names OpenGL hands out ([gl_name n] for
    its [n]-th request), and the content of uninitialised floats. *)
Record World : Type := mkWorld {
  self : SceneManager;
  calls : list Call;
  disk : string -> option Image;
  gl_name : nat -> Z;
  gl_generated : nat;
  garbage : nat -> R }.

Definition emit (w : World) (cs : list Call) : World :=
  mkWorld (self w) (calls w ++ cs) (disk w) (gl_name w) (gl_generated w) (garbage w).

Definition with_self (w : World) (s : SceneManager) : World :=
  mkWorld s (calls w) (disk w) (gl_name w) (gl_generated w) (garbage w).

Inductive Fault : Type :=
| OutOfBounds (index : Z)
| NullDereference.

Inductive Outcome (A : Type) : Type :=
| Ret (a : A) (w : World)
| Crash (f : Fault) (w : World).
Arguments Ret {A} a w.
Arguments Crash {A} f w.

Definition M (A : Type) : Type := World -> Outcome A.

#[export] Instance M_ret : MRet M := fun A a w => Ret a w.

#[export] Instance M_bind : MBind M := fun A B k m w =>
  match m w with
  | Ret a w' => k a w'
  | Crash f w' => Crash f w'
  end.

Definition fault {A : Type} (f : Fault) : M A := fun w => Crash f w.

Definition call (c : Call) : M unit := fun w => Ret tt (emit w [c]).

Definition this : M SceneManager := fun w => Ret (self w) w.

Definition store (s : SceneManager) : M unit := fun w => Ret tt (with_self w s).

(** [for (i = lo; i < lo + count; i++) body], the locals the body updates
    threaded through. *)
Fixpoint for_loop {L : Type} (lo count : nat) (body : nat -> L -> M L) (locals : L) : M L :=
  match count with
  | O => mret locals
  | S count' => locals' ← body lo locals; for_loop (S lo) count' body locals'
  end.

(** Results of the [const]-like lookups, which touch no collaborator. *)
Inductive Res (A : Type) : Type :=
| Ok (a : A)
| Err (f : Fault).
Arguments Ok {A} a.
Arguments Err {A} f.

Definition lift {A : Type} (r : SceneManager -> Res A) : M A := fun w =>
  match r (self w) with
  | Ok a => Ret a w
  | Err f => Crash f w
  end.

(** ** The texture table *)

(** [m_textureIDs[i]]: defined for the sixteen elements of the array only. *)
Definition texture_at (s : SceneManager) (i : Z) : option TEXTURE_INFO.t :=
  if (0 <=? i) && (i <? 16) then m_textureIDs s !! Z.to_nat i else None.

(** [SceneManager::SceneManager]: the members after construction. *)
Definition SceneManager_new (pShaderManager : pointer) : SceneManager :=
  mkSceneManager pShaderManager Ptr 0
    (replicate 16 (TEXTURE_INFO.mk "/0" (-1))) [].

Definition constructor (pShaderManager : pointer) : M unit :=
  call new_ShapeMeshes;;
  store (SceneManager_new pShaderManager).

(** [glGenTextures(1, &name)]: OpenGL picks the name. *)
Definition glGenTextures1 : M Z := fun w =>
  let name := gl_name w (gl_generated w) in
  Ret name (mkWorld (self w) (calls w ++ [glGenTextures 1 name]) (disk w)
              (gl_name w) (S (gl_generated w)) (garbage w)).

Definition do_stbi_load (filename : string) : M (option Image) := fun w =>
  Ret (disk w filename) (emit w [stbi_load filename]).

(** The two stores [m_textureIDs[i].ID = textureID; m_textureIDs[i].tag = tag]. *)
Definition set_texture (i : Z) (textureID : Z) (tag : string) : M unit :=
  s ← this;
  match texture_at s i with
  | None => fault (OutOfBounds i)
  | Some _ =>
      store (mkSceneManager (m_pShaderManager s) (m_basicMeshes s) (m_loadedTextures s)
               (<[Z.to_nat i := TEXTURE_INFO.mk tag textureID]> (m_textureIDs s))
               (m_objectMaterials s))
  end.

Definition set_loadedTextures (n : Z) : M unit :=
  s ← this;
  store (mkSceneManager (m_pShaderManager s) (m_basicMeshes s) n
           (m_textureIDs s) (m_objectMaterials s)).

(** [bool SceneManager::CreateGLTexture(const char* filename, std::string tag)] *)
Definition CreateGLTexture (filename : string) (tag : string) : M bool :=
  call (stbi_set_flip_vertically_on_load true);;
  image ← do_stbi_load filename;
  match image with
  | Some img =>
      call (cout (SuccessfullyLoadedImage filename (width img) (height img) (colorChannels img)));;
      textureID ← glGenTextures1;
      call (glBindTexture GL_TEXTURE_2D textureID);;
      call (glTexParameteri GL_TEXTURE_2D GL_TEXTURE_WRAP_S GL_REPEAT);;
      call (glTexParameteri GL_TEXTURE_2D GL_TEXTURE_WRAP_T GL_REPEAT);;
      call (glTexParameteri GL_TEXTURE_2D GL_TEXTURE_MIN_FILTER GL_LINEAR);;
      call (glTexParameteri GL_TEXTURE_2D GL_TEXTURE_MAG_FILTER GL_LINEAR);;
      let registerTexture : M bool :=
        call (glGenerateMipmap GL_TEXTURE_2D);;
        call stbi_image_free;;
        call (glBindTexture GL_TEXTURE_2D 0);;
        s ← this;
        set_texture (m_loadedTextures s) textureID tag;;
        set_loadedTextures (m_loadedTextures s + 1);;
        mret true in
      if colorChannels img =? 3 then
        call (glTexImage2D GL_TEXTURE_2D 0 GL_RGB8 (width img) (height img) 0
                GL_RGB GL_UNSIGNED_BYTE);;
        registerTexture
      else if colorChannels img =? 4 then
        call (glTexImage2D GL_TEXTURE_2D 0 GL_RGBA8 (width img) (height img) 0
                GL_RGBA GL_UNSIGNED_BYTE);;
        registerTexture
      else
        call (cout (NotImplementedChannels (colorChannels img)));;
        mret false
  | None =>
      call (cout (CouldNotLoadImage filename));;
      mret false
  end.

(** [void SceneManager::BindGLTextures()] *)
Definition BindGLTextures : M unit :=
  s ← this;
  for_loop 0 (Z.to_nat (m_loadedTextures s))
    (fun i _ =>
       call (glActiveTexture (GL_TEXTURE0_plus (Z.of_nat i)));;
       s ← this;
       match texture_at s (Z.of_nat i) with
       | None => fault (OutOfBounds (Z.of_nat i))
       | Some e => call (glBindTexture GL_TEXTURE_2D (TEXTURE_INFO.ID e))
       end) tt.

(** [void SceneManager::DestroyGLTextures()]: the body calls
    [glGenTextures(1, &m_textureIDs[i].ID)], which stores a new name in the
    entry. *)
Definition DestroyGLTextures : M unit :=
  s ← this;
  for_loop 0 (Z.to_nat (m_loadedTextures s))
    (fun i _ =>
       s ← this;
       match texture_at s (Z.of_nat i) with
       | None => fault (OutOfBounds (Z.of_nat i))
       | Some e =>
           name ← glGenTextures1;
           set_texture (Z.of_nat i) name (TEXTURE_INFO.tag e)
       end) tt.

(** [SceneManager::~SceneManager] *)
Definition destructor : M unit :=
  s ← this;
  store (mkSceneManager NULL (m_basicMeshes s) (m_loadedTextures s)
           (m_textureIDs s) (m_objectMaterials s));;
  call delete_ShapeMeshes;;
  s ← this;
  store (mkSceneManager (m_pShaderManager s) NULL (m_loadedTextures s)
           (m_textureIDs s) (m_objectMaterials s));;
  DestroyGLTextures.

(** An unsigned 32-bit value read into an [int]: the value modulo 2^32, taken
    as a signed number (the stored -1 and 4294967295 both read as -1). *)
Definition to_int32 (z : Z) : Z := (z + 2147483648) mod 4294967296 - 2147483648.

(** The [while] loop of [FindTextureID]; [textureID = m_textureIDs[index].ID]
    assigns the unsigned field to an [int]. *)
Equations? FindTextureID_loop (s : SceneManager) (tag : string)
    (textureID index : Z) (bFound : bool) : Res Z
  by wf (Z.to_nat (m_loadedTextures s - index) + (if bFound then 0 else 1))%nat lt :=
FindTextureID_loop s tag textureID index bFound
  with Z_lt_dec index (m_loadedTextures s), bFound := {
  | left _, false with texture_at s index := {
      | None := Err (OutOfBounds index);
      | Some e with (compare (TEXTURE_INFO.tag e) tag =? 0) := {
          | true := FindTextureID_loop s tag (to_int32 (TEXTURE_INFO.ID e)) index true;
          | false := FindTextureID_loop s tag textureID (index + 1) false } };
  | _, _ := Ok textureID }.
Proof. all: lia. Qed.

(** [int SceneManager::FindTextureID(std::string tag)] *)
Definition FindTextureID (tag : string) (s : SceneManager) : Res Z :=
  FindTextureID_loop s tag (-1) 0 false.

(** The [while] loop of [FindTextureSlot]. *)
Equations? FindTextureSlot_loop (s : SceneManager) (tag : string)
    (textureSlot index : Z) (bFound : bool) : Res Z
  by wf (Z.to_nat (m_loadedTextures s - index) + (if bFound then 0 else 1))%nat lt :=
FindTextureSlot_loop s tag textureSlot index bFound
  with Z_lt_dec index (m_loadedTextures s), bFound := {
  | left _, false with texture_at s index := {
      | None := Err (OutOfBounds index);
      | Some e with (compare (TEXTURE_INFO.tag e) tag =? 0) := {
          | true := FindTextureSlot_loop s tag index index true;
          | false := FindTextureSlot_loop s tag textureSlot (index + 1) false } };
  | _, _ := Ok textureSlot }.
Proof. all: lia. Qed.

(** [int SceneManager::FindTextureSlot(std::string tag)] *)
Definition FindTextureSlot (tag : string) (s : SceneManager) : Res Z :=
  FindTextureSlot_loop s tag (-1) 0 false.

(** ** The material list *)

(** The five assignments of [FindMaterial] into its reference parameter; the
    [tag] of [material] is not assigned. *)
Definition copy_material (material found : OBJECT_MATERIAL.t) : OBJECT_MATERIAL.t :=
  OBJECT_MATERIAL.mk
    (OBJECT_MATERIAL.ambientColor found)
    (OBJECT_MATERIAL.ambientStrength found)
    (OBJECT_MATERIAL.diffuseColor found)
    (OBJECT_MATERIAL.specularColor found)
    (OBJECT_MATERIAL.shininess found)
    (OBJECT_MATERIAL.tag material).

(** The [while] loop of [FindMaterial]; [m_objectMaterials[index]] is read
    only below [size()]. *)
Equations? FindMaterial_loop (s : SceneManager) (tag : string)
    (material : OBJECT_MATERIAL.t) (index : nat) (bFound : bool) : OBJECT_MATERIAL.t
  by wf (length (m_objectMaterials s) - index + (if bFound then 0 else 1))%nat lt :=
FindMaterial_loop s tag material index bFound
  with lt_dec index (length (m_objectMaterials s)), bFound := {
  | left _, false with m_objectMaterials s !! index := {
      | None := material;
      | Some e with (compare (OBJECT_MATERIAL.tag e) tag =? 0) := {
          | true := FindMaterial_loop s tag (copy_material material e) index true;
          | false := FindMaterial_loop s tag material (index + 1) false } };
  | _, _ := material }.
Proof. all: lia. Qed.

(** [bool SceneManager::FindMaterial(std::string tag, OBJECT_MATERIAL& material)]:
    the returned pair is the [bool] and the final content of [material]. *)
Definition FindMaterial (tag : string) (material : OBJECT_MATERIAL.t)
    (s : SceneManager) : bool * OBJECT_MATERIAL.t :=
  if (length (m_objectMaterials s) =? 0)%nat then (false, material)
  else (true, FindMaterial_loop s tag material 0 false).

(** ** Shader uniforms *)

Definition g_ModelName : string := "model".
Definition g_ColorValueName : string := "objectColor".
Definition g_TextureValueName : string := "objectTexture".
Definition g_UseTextureName : string := "bUseTexture".
Definition g_UseLightingName : string := "bUseLighting".

(** [m_pShaderManager->f(...)] without a NULL test, and [m_basicMeshes->f()]. *)
Definition shader (c : Call) : M unit :=
  s ← this;
  match m_pShaderManager s with
  | NULL => fault NullDereference
  | Ptr => call c
  end.

Definition meshes (c : Call) : M unit :=
  s ← this;
  match m_basicMeshes s with
  | NULL => fault NullDereference
  | Ptr => call c
  end.

(** [void SceneManager::SetTransformations(...)] *)
Definition SetTransformations (scaleXYZ : vec3)
    (XrotationDegrees YrotationDegrees ZrotationDegrees : R)
    (positionXYZ : vec3) : M unit :=
  let scale := glm_scale scaleXYZ in
  let rotationX := glm_rotate (glm_radians XrotationDegrees) (glm_vec3 1 0 0) in
  let rotationY := glm_rotate (glm_radians YrotationDegrees) (glm_vec3 0 1 0) in
  let rotationZ := glm_rotate (glm_radians ZrotationDegrees) (glm_vec3 0 0 1) in
  let translation := glm_translate positionXYZ in
  let modelView :=
    mat4_mul (mat4_mul (mat4_mul (mat4_mul translation rotationX) rotationY) rotationZ) scale in
  s ← this;
  match m_pShaderManager s with
  | NULL => mret tt
  | Ptr => call (setMat4Value g_ModelName modelView)
  end.

(** [void SceneManager::SetShaderColor(...)]; [false] converts to the [int] 0. *)
Definition SetShaderColor (redColorValue greenColorValue blueColorValue alphaValue : R) : M unit :=
  s ← this;
  match m_pShaderManager s with
  | NULL => mret tt
  | Ptr =>
      call (setIntValue g_UseTextureName 0);;
      call (setVec4Value g_ColorValueName redColorValue greenColorValue blueColorValue alphaValue)
  end.

(** [void SceneManager::SetShaderTexture(std::string textureTag)]; [true]
    converts to the [int] 1. *)
Definition SetShaderTexture (textureTag : string) : M unit :=
  s ← this;
  match m_pShaderManager s with
  | NULL => mret tt
  | Ptr =>
      call (setIntValue g_UseTextureName 1);;
      textureID ← lift (FindTextureSlot textureTag);
      call (setSampler2DValue g_TextureValueName textureID)
  end.

(** [void SceneManager::SetTextureUVScale(float u, float v)] *)
Definition SetTextureUVScale (u v : R) : M unit :=
  s ← this;
  match m_pShaderManager s with
  | NULL => mret tt
  | Ptr => call (setVec2Value "UVscale" u v)
  end.

(** The local [OBJECT_MATERIAL material;] of [SetShaderMaterial]: its floats
    are not initialised, its [tag] is the empty string. *)
Definition uninitialised_material (g : nat -> R) : OBJECT_MATERIAL.t :=
  OBJECT_MATERIAL.mk (glm_vec3 (g 0%nat) (g 1%nat) (g 2%nat)) (g 3%nat)
    (glm_vec3 (g 4%nat) (g 5%nat) (g 6%nat))
    (glm_vec3 (g 7%nat) (g 8%nat) (g 9%nat)) (g 10%nat) "".

Definition material_uniforms (material : OBJECT_MATERIAL.t) : list Call :=
  [ setVec3Value "material.ambientColor" (OBJECT_MATERIAL.ambientColor material);
    setFloatValue "material.ambientStrength" (OBJECT_MATERIAL.ambientStrength material);
    setVec3Value "material.diffuseColor" (OBJECT_MATERIAL.diffuseColor material);
    setVec3Value "material.specularColor" (OBJECT_MATERIAL.specularColor material);
    setFloatValue "material.shininess" (OBJECT_MATERIAL.shininess material) ].

(** [void SceneManager::SetShaderMaterial(std::string materialTag)] *)
Definition SetShaderMaterial (materialTag : string) : M unit := fun w =>
  let s := self w in
  if (0 <? length (m_objectMaterials s))%nat then
    let material := uninitialised_material (garbage w) in
    let '(bReturn, material) := FindMaterial materialTag material s in
    if bReturn then
      (shader (setVec3Value "material.ambientColor" (OBJECT_MATERIAL.ambientColor material));;
       shader (setFloatValue "material.ambientStrength" (OBJECT_MATERIAL.ambientStrength material));;
       shader (setVec3Value "material.diffuseColor" (OBJECT_MATERIAL.diffuseColor material));;
       shader (setVec3Value "material.specularColor" (OBJECT_MATERIAL.specularColor material));;
       shader (setFloatValue "material.shininess" (OBJECT_MATERIAL.shininess material))) w
    else Ret tt w
  else Ret tt w.

(** ** Preparing the scene *)

(** [void SceneManager::LoadSceneTextures()]: the [bool] results are dropped. *)
Definition LoadSceneTextures : M unit :=
  CreateGLTexture "../../Utilities/textures/pages.jpg" "pages";;
  CreateGLTexture "../../Utilities/textures/page.jpg" "page";;
  CreateGLTexture "../../Utilities/textures/rubiks.jpg" "rubiks";;
  CreateGLTexture "../../Utilities/textures/shadow.jpg" "shadow";;
  BindGLTextures.

Definition push_back (material : OBJECT_MATERIAL.t) : M unit :=
  s ← this;
  store (mkSceneManager (m_pShaderManager s) (m_basicMeshes s) (m_loadedTextures s)
           (m_textureIDs s) (m_objectMaterials s ++ [material])).

Module Materials.
Open Scope R_scope.

Definition defaultMaterial : OBJECT_MATERIAL.t :=
  OBJECT_MATERIAL.mk (glm_vec3 0.8 0.8 0.8) 100.5 (glm_vec3 0.7 0.7 0.8)
    (glm_vec3 0.3 0.5 0.8) 100.5 "default_material".

Definition tableMaterial : OBJECT_MATERIAL.t :=
  OBJECT_MATERIAL.mk (glm_vec3 1.0 1.0 1.0) 1.0 (glm_vec3 0.8 0.7 0.8)
    (glm_vec3 0.05 0.05 0.05) 1.1 "table_material".

Definition paperMaterial : OBJECT_MATERIAL.t :=
  OBJECT_MATERIAL.mk (glm_vec3 0.99 0.99 0.99) 0.99 (glm_vec3 0.99 0.99 0.99)
    (glm_vec3 0.1 0.1 0.1) 100.0 "paper_material".

Definition wireMaterial : OBJECT_MATERIAL.t :=
  OBJECT_MATERIAL.mk (glm_vec3 0.8 0.8 0.8) 100.5 (glm_vec3 0.7 0.7 0.8)
    (glm_vec3 0.3 0.5 0.8) 100.5 "wire_material".

Definition rubiksMaterial : OBJECT_MATERIAL.t :=
  OBJECT_MATERIAL.mk (glm_vec3 0.5 0.5 0.5) 1.0 (glm_vec3 0.9 0.5 0.5)
    (glm_vec3 0.1 0.1 0.9) 1.0 "rubiks_material".

End Materials.

(** [void SceneManager::DefineObjectMaterials()] *)
Definition DefineObjectMaterials : M unit :=
  push_back Materials.defaultMaterial;;
  push_back Materials.tableMaterial;;
  push_back Materials.paperMaterial;;
  push_back Materials.wireMaterial;;
  push_back Materials.rubiksMaterial.

(** [void SceneManager::SetupSceneLights()] *)
Definition SetupSceneLights : M unit :=
  shader (setBoolValue g_UseLightingName true);;
  shader (setVec3Value "lightSources[0].position" (glm_vec3 5.0 4.0 (-4.0)));;
  shader (setVec3Value "lightSources[0].ambientColor" (glm_vec3 0.7 0.7 0.5));;
  shader (setVec3Value "lightSources[0].diffuseColor" (glm_vec3 0.5 0.5 0.5));;
  shader (setVec3Value "lightSources[0].specularColor" (glm_vec3 0.5 0.5 0.7));;
  shader (setFloatValue "lightSources[0].specularIntensity" 30.0).

(** [void SceneManager::PrepareScene()] *)
Definition PrepareScene : M unit :=
  LoadSceneTextures;;
  DefineObjectMaterials;;
  SetupSceneLights;;
  meshes (LoadMesh PlaneMesh);;
  meshes (LoadMesh CylinderMesh);;
  meshes (LoadMesh TaperedCylinderMesh);;
  meshes (LoadMesh BoxMesh);;
  meshes (LoadMesh SphereMesh);;
  meshes (LoadMesh ConeMesh);;
  meshes (LoadMesh TorusMesh).

(** ** The draw script ([SceneManager::RenderScene]) *)

Module Scene.
Import Rotation.
Open Scope R_scope.

(** A local [float a[n];] without initialiser. *)
Definition uninitialised_floats (n : nat) : M (list R) := fun w =>
  Ret (replicate n (garbage w 11%nat)) w.

(** [a[i]] on a local [float] array; every index below is within the array. *)
Definition elt (a : list R) (i : nat) : R := nth i a 0.

(** The desk plane (lines 606-631). *)
Definition draw_desk : M unit :=
  let scaleXYZ := glm_vec3 20.0 1.0 20.0 in
  let XrotationDegrees := 0.0 in
  let YrotationDegrees := 0.0 in
  let ZrotationDegrees := 0.0 in
  let positionXYZ := glm_vec3 0.0 0.0 0.0 in
  SetTransformations scaleXYZ XrotationDegrees YrotationDegrees ZrotationDegrees positionXYZ;;
  SetShaderColor 1 1 1 1;;
  SetShaderTexture "shadow";;
  SetTextureUVScale 1.1 1.1;;
  SetShaderMaterial "table_material";;
  meshes (DrawMesh PlaneMesh).

(** Pencil object rotation and position. *)
Definition pencil_xRot : R := 50.0.
Definition pencil_yRot : R := 20.0.
Definition pencil_zRot : R := 245.0.
Definition pencil_x : R := 0.2.
Definition pencil_y : R := 2.8.
Definition pencil_z : R := 5.4.

(** The five cylinders of the pencil (lines 653-693). *)
Definition draw_pencil_cylinders : M unit :=
  let xSz1 := [0.3; 0.4; 0.25; 0.4; 0.075] in
  let ySz1 := [0.4; 0.6; 11.2; 10.8; 0.2] in
  let zSz1 := [0.3; 0.4; 0.25; 0.4; 0.075] in
  let xRot1 := [0.0; 0.0; 0.0; 0.0; 0.0] in
  let yRot1 := [0.0; 0.0; 0.0; 0.0; 0.0] in
  let zRot1 := [0.0; 0.0; 0.0; 0.0; 0.0] in
  let xPos1 := [0.0; 0.0; 0.0; 0.0; 0.0] in
  let yPos1 := [0.0; 0.4; 1.0; 1.4; 14.8] in
  let zPos1 := [0.0; 0.0; 0.0; 0.0; 0.0] in
  let r1 := [0.9; 0.1; 0.1; 0.7; 0.1] in
  let g1 := [0.9; 0.1; 0.1; 0.7; 0.1] in
  let b1 := [0.9; 0.1; 0.1; 0.7; 0.1] in
  let a1 := [0.9; 0.9; 0.9; 0.5; 0.9] in
  for_loop 0 5 (fun i '(xPos1, yPos1, zPos1) =>
    let scaleXYZ := glm_vec3 (elt xSz1 i) (elt ySz1 i) (elt zSz1 i) in
    let p := rotate (mkPosition (elt xPos1 i) (elt yPos1 i) (elt zPos1 i))
               pencil_xRot pencil_yRot pencil_zRot in
    let xPos1 := <[i := xPos p]> xPos1 in
    let yPos1 := <[i := yPos p]> yPos1 in
    let zPos1 := <[i := zPos p]> zPos1 in
    let positionXYZ :=
      glm_vec3 (pencil_x + elt xPos1 i) (pencil_y + elt yPos1 i) (pencil_z + elt zPos1 i) in
    let XrotationDegrees := pencil_xRot + elt xRot1 i in
    let YrotationDegrees := pencil_yRot + elt yRot1 i in
    let ZrotationDegrees := pencil_zRot + elt zRot1 i in
    SetTransformations scaleXYZ XrotationDegrees YrotationDegrees ZrotationDegrees positionXYZ;;
    SetShaderColor (elt r1 i) (elt g1 i) (elt b1 i) (elt a1 i);;
    meshes (DrawMesh CylinderMesh);;
    mret (xPos1, yPos1, zPos1)) (xPos1, yPos1, zPos1);;
  mret tt.

(** The tapered cylinder of the pencil (lines 697-729). *)
Definition draw_pencil_taper : M unit :=
  let xSz2 := [0.4] in
  let ySz2 := [2.2] in
  let zSz2 := [0.4] in
  let xRot2 := [0.0] in
  let yRot2 := [0.0] in
  let zRot2 := [0.0] in
  let xPos2 := [0.0] in
  let yPos2 := [12.2] in
  let zPos2 := [0.0] in
  let scaleXYZ := glm_vec3 (elt xSz2 0) (elt ySz2 0) (elt zSz2 0) in
  let p := rotate (mkPosition (elt xPos2 0) (elt yPos2 0) (elt zPos2 0))
             pencil_xRot pencil_yRot pencil_zRot in
  let xPos2 := <[0%nat := xPos p]> xPos2 in
  let yPos2 := <[0%nat := yPos p]> yPos2 in
  let zPos2 := <[0%nat := zPos p]> zPos2 in
  let positionXYZ :=
    glm_vec3 (pencil_x + elt xPos2 0) (pencil_y + elt yPos2 0) (pencil_z + elt zPos2 0) in
  let XrotationDegrees := pencil_xRot + elt xRot2 0 in
  let YrotationDegrees := pencil_yRot + elt yRot2 0 in
  let ZrotationDegrees := pencil_zRot + elt zRot2 0 in
  SetTransformations scaleXYZ XrotationDegrees YrotationDegrees ZrotationDegrees positionXYZ;;
  SetShaderColor 0.1 0.1 0.1 0.9;;
  meshes (DrawMesh TaperedCylinderMesh).

(** The two boxes of the pencil clip (lines 734-771). *)
Definition draw_clip_boxes : M unit :=
  let xSz3 := [0.45; 0.4] in
  let ySz3 := [0.9; 3.4] in
  let zSz3 := [0.3; 0.12] in
  let xRot3 := [0.0; 0.0] in
  let yRot3 := [0.0; 0.0] in
  let zRot3 := [0.0; 0.0] in
  let xPos3 := [0.0; 0.0] in
  let yPos3 := [2.25; 2.2] in
  let zPos3 := [0.4; 0.6] in
  for_loop 0 2 (fun i '(xPos3, yPos3, zPos3) =>
    let yPos3 := <[i := elt yPos3 i + elt ySz3 i / 2]> yPos3 in
    let scaleXYZ := glm_vec3 (elt xSz3 i) (elt ySz3 i) (elt zSz3 i) in
    let p := rotate (mkPosition (elt xPos3 i) (elt yPos3 i) (elt zPos3 i))
               pencil_xRot pencil_yRot pencil_zRot in
    let xPos3 := <[i := xPos p]> xPos3 in
    let yPos3 := <[i := yPos p]> yPos3 in
    let zPos3 := <[i := zPos p]> zPos3 in
    let positionXYZ :=
      glm_vec3 (pencil_x + elt xPos3 i) (pencil_y + elt yPos3 i) (pencil_z + elt zPos3 i) in
    let XrotationDegrees := pencil_xRot + elt xRot3 i in
    let YrotationDegrees := pencil_yRot + elt yRot3 i in
    let ZrotationDegrees := pencil_zRot + elt zRot3 i in
    SetTransformations scaleXYZ XrotationDegrees YrotationDegrees ZrotationDegrees positionXYZ;;
    SetShaderColor 1 0.4 0.1 0.9;;
    meshes (DrawMesh BoxMesh);;
    mret (xPos3, yPos3, zPos3)) (xPos3, yPos3, zPos3);;
  mret tt.

(** The sphere of the pencil clip (lines 774-806). *)
Definition draw_clip_sphere : M unit :=
  let xSz4 := [0.2] in
  let ySz4 := [0.2] in
  let zSz4 := [0.1] in
  let xRot4 := [0.0] in
  let yRot4 := [0.0] in
  let zRot4 := [0.0] in
  let xPos4 := [0.0] in
  let yPos4 := [5.3] in
  let zPos4 := [0.52] in
  let scaleXYZ := glm_vec3 (elt xSz4 0) (elt ySz4 0) (elt zSz4 0) in
  let p := rotate (mkPosition (elt xPos4 0) (elt yPos4 0) (elt zPos4 0))
             pencil_xRot pencil_yRot pencil_zRot in
  let xPos4 := <[0%nat := xPos p]> xPos4 in
  let yPos4 := <[0%nat := yPos p]> yPos4 in
  let zPos4 := <[0%nat := zPos p]> zPos4 in
  let positionXYZ :=
    glm_vec3 (pencil_x + elt xPos4 0) (pencil_y + elt yPos4 0) (pencil_z + elt zPos4 0) in
  let XrotationDegrees := pencil_xRot + elt xRot4 0 in
  let YrotationDegrees := pencil_yRot + elt yRot4 0 in
  let ZrotationDegrees := pencil_zRot + elt zRot4 0 in
  SetTransformations scaleXYZ XrotationDegrees YrotationDegrees ZrotationDegrees positionXYZ;;
  SetShaderColor 1 0.4 0.1 0.7;;
  meshes (DrawMesh SphereMesh).

(** The cone of the pencil point (lines 810-842). *)
Definition draw_pencil_point : M unit :=
  let xSz5 := [0.2] in
  let ySz5 := [0.6] in
  let zSz5 := [0.2] in
  let xRot5 := [0.0] in
  let yRot5 := [0.0] in
  let zRot5 := [0.0] in
  let xPos5 := [0.0] in
  let yPos5 := [14.4] in
  let zPos5 := [0.0] in
  let scaleXYZ := glm_vec3 (elt xSz5 0) (elt ySz5 0) (elt zSz5 0) in
  let p := rotate (mkPosition (elt xPos5 0) (elt yPos5 0) (elt zPos5 0))
             pencil_xRot pencil_yRot pencil_zRot in
  let xPos5 := <[0%nat := xPos p]> xPos5 in
  let yPos5 := <[0%nat := yPos p]> yPos5 in
  let zPos5 := <[0%nat := zPos p]> zPos5 in
  let positionXYZ :=
    glm_vec3 (pencil_x + elt xPos5 0) (pencil_y + elt yPos5 0) (pencil_z + elt zPos5 0) in
  let XrotationDegrees := pencil_xRot + elt xRot5 0 in
  let YrotationDegrees := pencil_yRot + elt yRot5 0 in
  let ZrotationDegrees := pencil_zRot + elt zRot5 0 in
  SetTransformations scaleXYZ XrotationDegrees YrotationDegrees ZrotationDegrees positionXYZ;;
  SetShaderColor 0.1 0.1 0.1 0.9;;
  meshes (DrawMesh ConeMesh).

(** Notebook object rotation and position. *)
Definition notebook_xRot : R := 0.0.
Definition notebook_yRot : R := 5.0.
Definition notebook_zRot : R := 0.0.
Definition notebook_x : R := 5.5.
Definition notebook_y : R := 0.0.
Definition notebook_z : R := 0.0.

(** The box of the notebook (lines 864-902). *)
Definition draw_notebook_box : M unit :=
  let xSz6 := [10.0] in
  let ySz6 := [2.0] in
  let zSz6 := [14.0] in
  let xRot6 := [0.0] in
  let yRot6 := [0.0] in
  let zRot6 := [0.0] in
  let xPos6 := [0.0] in
  let yPos6 := [0.0] in
  let zPos6 := [0.0] in
  let yPos6 := <[0%nat := elt yPos6 0 + elt ySz6 0 / 2]> yPos6 in
  let scaleXYZ := glm_vec3 (elt xSz6 0) (elt ySz6 0) (elt zSz6 0) in
  let p := rotate (mkPosition (elt xPos6 0) (elt yPos6 0) (elt zPos6 0))
             notebook_xRot notebook_yRot notebook_zRot in
  let xPos6 := <[0%nat := xPos p]> xPos6 in
  let yPos6 := <[0%nat := yPos p]> yPos6 in
  let zPos6 := <[0%nat := zPos p]> zPos6 in
  let positionXYZ :=
    glm_vec3 (notebook_x + elt xPos6 0) (notebook_y + elt yPos6 0) (notebook_z + elt zPos6 0) in
  let XrotationDegrees := notebook_xRot + elt xRot6 0 in
  let YrotationDegrees := notebook_yRot + elt yRot6 0 in
  let ZrotationDegrees := notebook_zRot + elt zRot6 0 in
  SetTransformations scaleXYZ XrotationDegrees YrotationDegrees ZrotationDegrees positionXYZ;;
  SetShaderColor 1 1 1 1;;
  SetShaderTexture "pages";;
  SetTextureUVScale 1.0 1.0;;
  meshes (DrawMesh BoxMesh).

(** The page plane of the notebook (lines 906-942). *)
Definition draw_notebook_page : M unit :=
  let xSz7 := [5.0] in
  let ySz7 := [1.0] in
  let zSz7 := [7.0] in
  let xRot7 := [0.0] in
  let yRot7 := [-1.0] in
  let zRot7 := [0.0] in
  let xPos7 := [0.1] in
  let yPos7 := [2.02] in
  let zPos7 := [0.0] in
  let scaleXYZ := glm_vec3 (elt xSz7 0) (elt ySz7 0) (elt zSz7 0) in
  let p := rotate (mkPosition (elt xPos7 0) (elt yPos7 0) (elt zPos7 0))
             notebook_xRot notebook_yRot notebook_zRot in
  let xPos7 := <[0%nat := xPos p]> xPos7 in
  let yPos7 := <[0%nat := yPos p]> yPos7 in
  let zPos7 := <[0%nat := zPos p]> zPos7 in
  let positionXYZ :=
    glm_vec3 (notebook_x + elt xPos7 0) (notebook_y + elt yPos7 0) (notebook_z + elt zPos7 0) in
  let XrotationDegrees := notebook_xRot + elt xRot7 0 in
  let YrotationDegrees := notebook_yRot + elt yRot7 0 in
  let ZrotationDegrees := notebook_zRot + elt zRot7 0 in
  SetTransformations scaleXYZ XrotationDegrees YrotationDegrees ZrotationDegrees positionXYZ;;
  SetShaderColor 1 1 1 1;;
  SetShaderTexture "page";;
  SetTextureUVScale 1.0 1.0;;
  SetShaderMaterial "paper_material";;
  meshes (DrawMesh PlaneMesh).

(** The seventeen rings of the notebook (lines 947-994). The nine arrays are
    declared without initialiser; the body stores element [i] of each before
    it reads it. *)
Definition draw_notebook_rings : M unit :=
  fresh ← uninitialised_floats 17;
  for_loop 0 17 (fun i '(xSz8, ySz8, zSz8, xRot8, yRot8, zRot8, xPos8, yPos8, zPos8) =>
    let xSz8 := <[i := 0.25]> xSz8 in
    let ySz8 := <[i := 0.25]> ySz8 in
    let zSz8 := <[i := 0.25]> zSz8 in
    let xRot8 := <[i := 0.0]> xRot8 in
    let yRot8 := <[i := 0.0]> yRot8 in
    let zRot8 := <[i := 0.0]> zRot8 in
    let xPos8 := <[i := -5.0]> xPos8 in
    let yPos8 := <[i := 1.0]> yPos8 in
    let zPos8 := <[i := 13.5 / 17 * IZR (8 - Z.of_nat i)]> zPos8 in
    let yPos8 := <[i := elt yPos8 i + elt ySz8 i / 2]> yPos8 in
    let scaleXYZ := glm_vec3 (elt xSz8 i) (elt ySz8 i) (elt zSz8 i) in
    let p := rotate (mkPosition (elt xPos8 i) (elt yPos8 i) (elt zPos8 i))
               notebook_xRot notebook_yRot notebook_zRot in
    let xPos8 := <[i := xPos p]> xPos8 in
    let yPos8 := <[i := yPos p]> yPos8 in
    let zPos8 := <[i := zPos p]> zPos8 in
    let positionXYZ :=
      glm_vec3 (notebook_x + elt xPos8 i) (notebook_y + elt yPos8 i)
        (notebook_z + elt zPos8 i) in
    let XrotationDegrees := notebook_xRot + elt xRot8 i in
    let YrotationDegrees := notebook_yRot + elt yRot8 i in
    let ZrotationDegrees := notebook_zRot + elt zRot8 i in
    SetTransformations scaleXYZ XrotationDegrees YrotationDegrees ZrotationDegrees positionXYZ;;
    SetShaderColor 0.7 0.7 0.7 0.9;;
    meshes (DrawMesh TorusMesh);;
    mret (xSz8, ySz8, zSz8, xRot8, yRot8, zRot8, xPos8, yPos8, zPos8))
    (fresh, fresh, fresh, fresh, fresh, fresh, fresh, fresh, fresh);;
  mret tt.

(** Rubik's cubes object rotation and position. *)
Definition rubiks_xRot : R := 0.0.
Definition rubiks_yRot : R := 0.0.
Definition rubiks_zRot : R := 0.0.
Definition rubiks_x : R := -5.5.
Definition rubiks_y : R := 0.0.
Definition rubiks_z : R := 0.0.

(** The four boxes of the Rubik's cubes (lines 1015-1058). *)
Definition draw_rubiks : M unit :=
  let xSz9 := [3.0; 3.0; 3.0; 3.0] in
  let ySz9 := [3.0; 3.0; 3.0; 3.0] in
  let zSz9 := [3.0; 3.0; 3.0; 3.0] in
  let xRot9 := [0.0; 180.0; 0.0; 90.0] in
  let yRot9 := [0.0; 0.0; -90.0; 180.0] in
  let zRot9 := [-90.0; 0.0; 0.0; 135.0] in
  let xPos9 := [0.0; -3.0; -3.0; -1.5] in
  let yPos9 := [0.0; 0.0; 0.0; 3.0] in
  let zPos9 := [0.0; 1.5; -1.5; 0.0] in
  for_loop 0 4 (fun i '(xPos9, yPos9, zPos9) =>
    let yPos9 := <[i := elt yPos9 i + elt ySz9 i / 2]> yPos9 in
    let scaleXYZ := glm_vec3 (elt xSz9 i) (elt ySz9 i) (elt zSz9 i) in
    let p := rotate (mkPosition (elt xPos9 i) (elt yPos9 i) (elt zPos9 i))
               rubiks_xRot rubiks_yRot rubiks_zRot in
    let xPos9 := <[i := xPos p]> xPos9 in
    let yPos9 := <[i := yPos p]> yPos9 in
    let zPos9 := <[i := zPos p]> zPos9 in
    let positionXYZ :=
      glm_vec3 (rubiks_x + elt xPos9 i) (rubiks_y + elt yPos9 i) (rubiks_z + elt zPos9 i) in
    let XrotationDegrees := rubiks_xRot + elt xRot9 i in
    let YrotationDegrees := rubiks_yRot + elt yRot9 i in
    let ZrotationDegrees := rubiks_zRot + elt zRot9 i in
    SetTransformations scaleXYZ XrotationDegrees YrotationDegrees ZrotationDegrees positionXYZ;;
    SetShaderColor 1 1 1 1;;
    SetShaderTexture "rubiks";;
    SetTextureUVScale 1.0 1.0;;
    SetShaderMaterial "rubiks_material";;
    meshes (DrawMesh BoxMesh);;
    mret (xPos9, yPos9, zPos9)) (xPos9, yPos9, zPos9);;
  mret tt.

(** [void SceneManager::RenderScene()] *)
Definition RenderScene : M unit :=
  draw_desk;;
  SetShaderMaterial "default_material";;
  draw_pencil_cylinders;;
  draw_pencil_taper;;
  draw_clip_boxes;;
  draw_clip_sphere;;
  draw_pencil_point;;
  draw_notebook_box;;
  draw_notebook_page;;
  SetShaderMaterial "default_material";;
  draw_notebook_rings;;
  draw_rubiks.

End Scene.

(** ** Vocabulary of the statements *)

(** The loaded entries of the texture table, in insertion order. *)
Definition entries (s : SceneManager) : list TEXTURE_INFO.t :=
  take (Z.to_nat (m_loadedTextures s)) (m_textureIDs s).

(** The array has its sixteen elements and the counter is within it. *)
Definition table_ok (s : SceneManager) : Prop :=
  length (m_textureIDs s) = 16%nat /\ 0 <= m_loadedTextures s <= 16.

(** [e], at position [i] of [l], is the first element whose tag is [t]. *)
Definition first_match {A : Type} (tag_of : A -> string) (t : string)
    (l : list A) (i : nat) (e : A) : Prop :=
  l !! i = Some e /\ tag_of e = t /\
  forall j e', (j < i)%nat -> l !! j = Some e' -> tag_of e' <> t.

Definition absent {A : Type} (tag_of : A -> string) (t : string) (l : list A) : Prop :=
  forall e, e ∈ l -> tag_of e <> t.

Definition has_tag (t : string) (e : TEXTURE_INFO.t) : Prop := TEXTURE_INFO.tag e = t.

#[export] Instance has_tag_dec t e : Decision (has_tag t e).
Proof. unfold has_tag. apply _. Defined.

Definition has_material_tag (t : string) (e : OBJECT_MATERIAL.t) : Prop :=
  OBJECT_MATERIAL.tag e = t.

#[export] Instance has_material_tag_dec t e : Decision (has_material_tag t e).
Proof. unfold has_material_tag. apply _. Defined.

(** The two ways in which [CreateGLTexture] gives up on a file. *)
Definition load_failure (w : World) (filename : string) : Prop :=
  disk w filename = None \/
  exists img, disk w filename = Some img /\ colorChannels img <> 3 /\ colorChannels img <> 4.

Definition world_of {A : Type} (o : Outcome A) : World :=
  match o with Ret _ w => w | Crash _ w => w end.

Definition is_glDeleteTextures (c : Call) : bool :=
  match c with glDeleteTextures _ _ => true | _ => false end.

Definition is_glGenTextures (c : Call) : bool :=
  match c with glGenTextures _ _ => true | _ => false end.

(** A scene manager on which a frame can be drawn: both collaborators are
    there and the texture table is sound. *)
Definition ready (s : SceneManager) : Prop :=
  m_pShaderManager s = Ptr /\ m_basicMeshes s = Ptr /\ table_ok s.

(** [m_objectMaterials.size() > 0] *)
Definition materials_defined (s : SceneManager) : bool :=
  (0 <? length (m_objectMaterials s))%nat.

(** What a frame looks like from the shader's side: uniform assignments by
    name, and draw calls. *)
Inductive Label : Type :=
| Uniform (name : string)
| Draw (m : Mesh).

Definition label (c : Call) : option Label :=
  match c with
  | setMat4Value name _ | setIntValue name _ | setBoolValue name _
  | setVec4Value name _ _ _ _ | setSampler2DValue name _
  | setVec2Value name _ _ | setVec3Value name _ | setFloatValue name _ =>
      Some (Uniform name)
  | DrawMesh m => Some (Draw m)
  | _ => None
  end.

Definition labels (cs : list Call) : list Label := omap label cs.

(** On the object [s], with [g] in uninitialised storage, the run of [m]
    returns [a], adds the calls [l] to the log and changes nothing else. *)
Definition emits (s : SceneManager) (g : nat -> R) {A : Type}
    (m : M A) (a : A) (l : list Call) : Prop :=
  forall w, self w = s -> garbage w = g -> m w = Ret a (emit w l).

(** The same, the calls seen as labels only. *)
Definition traces (s : SceneManager) (g : nat -> R) {A : Type}
    (m : M A) (a : A) (ls : list Label) : Prop :=
  exists l, emits s g m a l /\ labels l = ls.

Definition Mesh_eqb (a b : Mesh) : bool :=
  match a, b with
  | PlaneMesh, PlaneMesh | CylinderMesh, CylinderMesh
  | TaperedCylinderMesh, TaperedCylinderMesh | BoxMesh, BoxMesh
  | SphereMesh, SphereMesh | ConeMesh, ConeMesh | TorusMesh, TorusMesh => true
  | _, _ => false
  end.

Definition draws (ls : list Label) : list Mesh :=
  omap (fun l => match l with Draw m => Some m | Uniform _ => None end) ls.

Definition draws_of (m : Mesh) (ls : list Label) : nat :=
  length (filter (fun m' => Mesh_eqb m m' = true) (draws ls)).

(** The three kinds of per-draw uniform assignment. *)
Inductive Stage : Type := Transform | ColorTexture | Material.

Definition stage (name : string) : option Stage :=
  if String.eqb name "model" then Some Transform
  else if String.eqb name "objectColor" || String.eqb name "bUseTexture"
          || String.eqb name "objectTexture" || String.eqb name "UVscale"
  then Some ColorTexture
  else if String.eqb name "material.ambientColor"
          || String.eqb name "material.ambientStrength"
          || String.eqb name "material.diffuseColor"
          || String.eqb name "material.specularColor"
          || String.eqb name "material.shininess"
  then Some Material
  else None.

Definition rank (s : Stage) : nat :=
  match s with Transform => 0 | ColorTexture => 1 | Material => 2 end.

(** Transform assignments, then colour and texture, then material. *)
Fixpoint in_order (l : list Stage) : bool :=
  match l with
  | a :: (b :: _) as rest => (rank a <=? rank b)%nat && in_order rest
  | _ => true
  end.

(** The frame cut at its draw calls: for each draw call, the stages of the
    uniform assignments issued since the previous draw call. *)
Fixpoint segments_from (pending : list Stage) (ls : list Label) : list (list Stage * Mesh) :=
  match ls with
  | [] => []
  | Uniform name :: rest =>
      segments_from (pending ++ match stage name with Some st => [st] | None => [] end) rest
  | Draw m :: rest => (pending, m) :: segments_from [] rest
  end.

Definition segments (ls : list Label) : list (list Stage * Mesh) := segments_from [] ls.

(** The ordering as the specification words it: in the assignments issued for
    a draw call nothing comes before an earlier stage. *)
Definition per_draw_order (ls : list Label) : bool :=
  forallb (fun seg => in_order (fst seg)) (segments ls).

Definition is_Material (s : Stage) : bool :=
  match s with Material => true | _ => false end.

Fixpoint skip_Material (l : list Stage) : list Stage :=
  match l with
  | Material :: rest => skip_Material rest
  | _ => l
  end.

(** The ordering the script has: a draw call is preceded by its own block,
    which starts at the transform and is in order; material assignments may
    have been issued before the block. *)
Definition block_order (ls : list Label) : bool :=
  forallb (fun seg =>
             match skip_Material (fst seg) with
             | Transform :: ColorTexture :: rest => in_order (ColorTexture :: rest)
             | _ => false
             end) (segments ls).

(** The label sequences of the blocks of [RenderScene]; [defined] tells
    whether the material list is non-empty. *)
Module Golden.

Definition material (defined : bool) : list Label :=
  if defined then
    [ Uniform "material.ambientColor"; Uniform "material.ambientStrength";
      Uniform "material.diffuseColor"; Uniform "material.specularColor";
      Uniform "material.shininess" ]
  else [].

Definition transform_color : list Label :=
  [ Uniform "model"; Uniform "bUseTexture"; Uniform "objectColor" ].

Definition texture : list Label :=
  [ Uniform "bUseTexture"; Uniform "objectTexture"; Uniform "UVscale" ].

(** transform, colour, draw *)
Definition plain (m : Mesh) : list Label := transform_color ++ [Draw m].

(** transform, colour, texture, draw *)
Definition textured (m : Mesh) : list Label := transform_color ++ texture ++ [Draw m].

(** transform, colour, texture, material, draw *)
Definition full (defined : bool) (m : Mesh) : list Label :=
  transform_color ++ texture ++ material defined ++ [Draw m].

Fixpoint times (n : nat) (l : list Label) : list Label :=
  match n with O => [] | S n' => l ++ times n' l end.

Definition frame (defined : bool) : list Label :=
  full defined PlaneMesh ++ material defined ++
  times 5 (plain CylinderMesh) ++ plain TaperedCylinderMesh ++
  times 2 (plain BoxMesh) ++ plain SphereMesh ++ plain ConeMesh ++
  textured BoxMesh ++ full defined PlaneMesh ++ material defined ++
  times 17 (plain TorusMesh) ++ times 4 (full defined BoxMesh).

End Golden.

(** ** Concrete worlds used as examples *)

Module Examples.

Definition rgb : Image := mkImage 64 64 3.

Definition grey : Image := mkImage 64 64 1.

(** Every file decodes to an RGB image; OpenGL names are 1, 2, 3, ... *)
Definition world (s : SceneManager) : World :=
  mkWorld s [] (fun _ => Some rgb) (fun n => Z.of_nat n + 1) 0 (fun _ => 0%R).

(** No file exists. *)
Definition world_without_files (s : SceneManager) : World :=
  mkWorld s [] (fun _ => None) (fun n => Z.of_nat n + 1) 0 (fun _ => 0%R).

(** Every file decodes to a one-channel image. *)
Definition world_of_grey_files (s : SceneManager) : World :=
  mkWorld s [] (fun _ => Some grey) (fun n => Z.of_nat n + 1) 0 (fun _ => 0%R).

Definition fresh : SceneManager := SceneManager_new Ptr.

(** A scene manager with one material and no texture. *)
Definition one_material : SceneManager :=
  mkSceneManager Ptr Ptr 0 (m_textureIDs fresh) [Materials.defaultMaterial].

(** A table in which the tag "page" was registered twice, and a material list
    in which "wire_material" was pushed twice with different content. *)
Definition duplicated : SceneManager :=
  mkSceneManager Ptr Ptr 3
    (<[0%nat := TEXTURE_INFO.mk "pages" 7]>
       (<[1%nat := TEXTURE_INFO.mk "page" 8]>
          (<[2%nat := TEXTURE_INFO.mk "page" 9]> (m_textureIDs fresh))))
    [ Materials.defaultMaterial; Materials.wireMaterial; Materials.paperMaterial;
      OBJECT_MATERIAL.mk (glm_vec3 0 0 0) 0 (glm_vec3 0 0 0) (glm_vec3 0 0 0) 0
        "wire_material" ].

(** One texture whose OpenGL name does not fit an [int]. *)
Definition large_name : SceneManager :=
  mkSceneManager Ptr Ptr 1
    (<[0%nat := TEXTURE_INFO.mk "texture" 3000000000]> (m_textureIDs fresh)) [].

(** One texture whose OpenGL name is the largest unsigned 32-bit value. *)
Definition largest_name : SceneManager :=
  mkSceneManager Ptr Ptr 1
    (<[0%nat := TEXTURE_INFO.mk "texture" 4294967295]> (m_textureIDs fresh)) [].

(** A scene manager without shader manager in which two textures are
    loaded. *)
Definition headless_with_textures : SceneManager :=
  mkSceneManager NULL Ptr 2
    (<[0%nat := TEXTURE_INFO.mk "pages" 7]>
       (<[1%nat := TEXTURE_INFO.mk "page" 8]> (m_textureIDs fresh))) [].

(** One texture, registered under OpenGL name 1. *)
Definition one_texture : SceneManager :=
  mkSceneManager Ptr Ptr 1
    (<[0%nat := TEXTURE_INFO.mk "texture" 1]> (m_textureIDs fresh)) [].

(** The world after construction and [PrepareScene], all four images
    decoding. *)
Definition prepared : World :=
  world_of ((constructor Ptr;; PrepareScene) (world fresh)).

(** [PrepareScene] called five times on a new scene manager. *)
Definition prepared_five_times : Outcome unit :=
  (constructor Ptr;; PrepareScene;; PrepareScene;; PrepareScene;; PrepareScene;;
   PrepareScene) (world fresh).

(** [n] calls of [CreateGLTexture] in a row. *)
Fixpoint load (n : nat) : M unit :=
  match n with
  | O => mret tt
  | S n' => CreateGLTexture "texture.jpg" "texture";; load n'
  end.

End Examples.

(** ** Vocabulary of the further statements *)

(** The file decodes to an image that [CreateGLTexture] accepts. *)
Definition loadable (w : World) (filename : string) : bool :=
  match disk w filename with
  | Some img => (colorChannels img =? 3) || (colorChannels img =? 4)
  | None => false
  end.

(** The calls of [CreateGLTexture] up to the test of the channel count, for a
    file that decodes to [img] and the texture name [name]. *)
Definition load_prefix (filename : string) (img : Image) (name : Z) : list Call :=
  [ stbi_set_flip_vertically_on_load true; stbi_load filename;
    cout (SuccessfullyLoadedImage filename (width img) (height img) (colorChannels img));
    glGenTextures 1 name; glBindTexture GL_TEXTURE_2D name;
    glTexParameteri GL_TEXTURE_2D GL_TEXTURE_WRAP_S GL_REPEAT;
    glTexParameteri GL_TEXTURE_2D GL_TEXTURE_WRAP_T GL_REPEAT;
    glTexParameteri GL_TEXTURE_2D GL_TEXTURE_MIN_FILTER GL_LINEAR;
    glTexParameteri GL_TEXTURE_2D GL_TEXTURE_MAG_FILTER GL_LINEAR ].

(** The calls that follow for three or four channels. *)
Definition load_upload (img : Image) : list Call :=
  [ (if colorChannels img =? 3
     then glTexImage2D GL_TEXTURE_2D 0 GL_RGB8 (width img) (height img) 0
            GL_RGB GL_UNSIGNED_BYTE
     else glTexImage2D GL_TEXTURE_2D 0 GL_RGBA8 (width img) (height img) 0
            GL_RGBA GL_UNSIGNED_BYTE);
    glGenerateMipmap GL_TEXTURE_2D; stbi_image_free; glBindTexture GL_TEXTURE_2D 0 ].

(** The object once [tag] and [textureID] are stored in the next slot. *)
Definition registered (s : SceneManager) (tag : string) (textureID : Z) : SceneManager :=
  mkSceneManager (m_pShaderManager s) (m_basicMeshes s) (m_loadedTextures s + 1)
    (<[Z.to_nat (m_loadedTextures s) := TEXTURE_INFO.mk tag textureID]> (m_textureIDs s))
    (m_objectMaterials s).

(** Texture unit [i], [i + 1], ... bound to the entries of [l] in turn. *)
Fixpoint bind_log (i : nat) (l : list TEXTURE_INFO.t) : list Call :=
  match l with
  | [] => []
  | e :: l' =>
      glActiveTexture (GL_TEXTURE0_plus (Z.of_nat i))
      :: glBindTexture GL_TEXTURE_2D (TEXTURE_INFO.ID e)
      :: bind_log (S i) l'
  end.

(** The five [material.*] assignments with the values of the entry [e]. *)
Definition material_log (e : OBJECT_MATERIAL.t) : list Call :=
  [ setVec3Value "material.ambientColor" (OBJECT_MATERIAL.ambientColor e);
    setFloatValue "material.ambientStrength" (OBJECT_MATERIAL.ambientStrength e);
    setVec3Value "material.diffuseColor" (OBJECT_MATERIAL.diffuseColor e);
    setVec3Value "material.specularColor" (OBJECT_MATERIAL.specularColor e);
    setFloatValue "material.shininess" (OBJECT_MATERIAL.shininess e) ].

(** The materials that [DefineObjectMaterials] pushes, in order. *)
Definition scene_materials : list OBJECT_MATERIAL.t :=
  [ Materials.defaultMaterial; Materials.tableMaterial; Materials.paperMaterial;
    Materials.wireMaterial; Materials.rubiksMaterial ].

(** The files of [LoadSceneTextures], with their tags, in order. *)
Definition scene_textures : list (string * string) :=
  [ ("../../Utilities/textures/pages.jpg", "pages");
    ("../../Utilities/textures/page.jpg", "page");
    ("../../Utilities/textures/rubiks.jpg", "rubiks");
    ("../../Utilities/textures/shadow.jpg", "shadow") ].

(** The tags that [LoadSceneTextures] registers in the world [w]: those of
    the loadable files, in the order of the calls. *)
Definition loaded_tags (w : World) : list string :=
  flat_map (fun ft => if loadable w (fst ft) then [snd ft] else []) scene_textures.

Module MoreExamples.

(** Only the two notebook images exist. *)
Definition world_of_two_files (s : SceneManager) : World :=
  mkWorld s []
    (fun f => if String.eqb f "../../Utilities/textures/page.jpg"
                 || String.eqb f "../../Utilities/textures/pages.jpg"
              then Some Examples.rgb else None)
    (fun n => Z.of_nat n + 1) 0 (fun _ => 0%R).

(** A scene manager without shader manager but with a material. *)
Definition headless_with_material : SceneManager :=
  mkSceneManager NULL Ptr 0 (m_textureIDs Examples.fresh) [Materials.defaultMaterial].

End MoreExamples.

(** ** Facts about the rotation *)

Section RotationFacts.
Import Rotation.
Open Scope R_scope.

Lemma ucRot_planar_rotation theta p :
  ucRot (cos theta) (sin theta) p = planar_rotation theta p.
Proof. destruct p as [h v]. unfold ucRot, planar_rotation. cbn. f_equal; ring. Qed.

Lemma ucRot_unit p : ucRot 1 0 p = p.
Proof. destruct p as [h v]. unfold ucRot. f_equal; ring. Qed.

Lemma rotate_unfold k p x y z :
  k = 3.14159 / 180.0 ->
  rotate p x y z = rotate_spec k p x y z.
Proof.
  intros ->. destruct p as [xP yP zP].
  unfold rotate, rotate_spec, planar_rotation, ucRot. cbn [xPos yPos zPos fst snd].
  replace (- y * (3.14159 / 180.0)) with (- (y * (3.14159 / 180.0))) by ring.
  f_equal; ring.
Qed.

Lemma quarter_turn_value : quarter_turn = 1570795 / 1000000.
Proof. unfold quarter_turn. lra. Qed.

Lemma INR_fact_S n : INR (fact (S n)) = INR (S n) * INR (fact n).
Proof. rewrite fact_simpl, mult_INR. reflexivity. Qed.

Lemma cos_approx_5 a :
  cos_approx a 5 =
  1 - a^2/2 + a^4/24 - a^6/720 + a^8/40320 - a^10/3628800.
Proof.
  unfold cos_approx, cos_term. cbn [sum_f_R0 Nat.mul Nat.add].
  rewrite !INR_fact_S, !S_INR. cbn [fact INR]. field.
Qed.

Lemma cos_approx_6 a :
  cos_approx a 6 =
  1 - a^2/2 + a^4/24 - a^6/720 + a^8/40320 - a^10/3628800 + a^12/479001600.
Proof.
  unfold cos_approx, cos_term. cbn [sum_f_R0 Nat.mul Nat.add].
  rewrite !INR_fact_S, !S_INR. cbn [fact INR]. field.
Qed.

(** 3.14159 is below pi, so the cosine of the code's quarter turn is a small
    positive number and not zero. *)
Lemma cos_quarter_turn : 0 < cos quarter_turn < 2 / 1000000.
Proof.
  rewrite quarter_turn_value.
  destruct (pre_cos_bound (1570795 / 1000000) 2) as [lo hi]; [lra | lra |].
  change (2 * 2 + 1)%nat with 5%nat in lo.
  change (2 * (2 + 1))%nat with 6%nat in hi.
  rewrite cos_approx_5 in lo. rewrite cos_approx_6 in hi.
  split.
  - eapply Rlt_le_trans; [| exact lo]. lra.
  - eapply Rle_lt_trans; [exact hi |]. lra.
Qed.

Lemma sin_quarter_turn : 1 - 4 / 1000000000000 < sin quarter_turn < 1.
Proof.
  pose proof cos_quarter_turn as [c0 c1].
  pose proof (sin2_cos2 quarter_turn) as e. unfold Rsqr in e.
  assert (0 < sin quarter_turn) as s0.
  { apply sin_gt_0.
    - rewrite quarter_turn_value. lra.
    - pose proof PI2_3_2. rewrite quarter_turn_value. lra. }
  pose proof (SIN_bound quarter_turn) as [_ s1].
  split; nra.
Qed.

Lemma rotate_by_quarter_turn :
  rotate (mkPosition 1 0 0) 0 0 90 =
  mkPosition (cos quarter_turn) (sin quarter_turn) 0.
Proof.
  unfold rotate, ucRot. fold quarter_turn.
  replace (- (0 * (3.14159 / 180.0))) with 0 by ring.
  replace (0 * (3.14159 / 180.0)) with 0 by ring.
  rewrite cos_0, sin_0. f_equal; ring.
Qed.

(** ** Statements about the rotation *)

(** [C2, as stated, fails] With pi/180 as the degree-to-radian factor, a
    rotation of (1, 0, 0) by z = 90 has x-coordinate 0; [rotate] multiplies
    by 3.14159/180.0 and leaves a positive x-coordinate. *)
Lemma rotate_factor_is_not_pi :
  rotate (mkPosition 1 0 0) 0 0 90 <> rotate_spec (PI / 180) (mkPosition 1 0 0) 0 0 90.
Proof.
  rewrite rotate_by_quarter_turn. intros H. apply (f_equal xPos) in H.
  unfold rotate_spec, planar_rotation in H. cbn [xPos yPos zPos fst snd] in H.
  replace (90 * (PI / 180)) with (PI / 2) in H by lra.
  rewrite cos_PI2 in H. pose proof cos_quarter_turn as [Hpos _]. nra.
Qed.

(** [C2, amended] [rotate] is the composite of three planar rotations, each
    done by [ucRot]: by z on (xPos, yPos), then by the negated y on
    (xPos, zPos), then by x on (yPos, zPos); every angle is turned from
    degrees into radians by the factor 3.14159/180.0. *)
Theorem rotate_composes_planar_rotations p x y z :
  rotate p x y z = rotate_spec (3.14159 / 180.0) p x y z /\
  (forall theta q, ucRot (cos theta) (sin theta) q = planar_rotation theta q).
Proof. split; [by apply rotate_unfold | apply ucRot_planar_rotation]. Qed.

(** [C6] With the three angles zero, [rotate] returns the position it was
    given. *)
Theorem rotate_zero_angles p : rotate p 0 0 0 = p.
Proof.
  destruct p as [xP yP zP]. unfold rotate.
  replace (0 * (3.14159 / 180.0)) with 0 by ring.
  rewrite Ropp_0, cos_0, sin_0, !ucRot_unit. reflexivity.
Qed.

(** [C7, as stated, fails] [rotate] with (x, y, z) = (0, 0, 90) does not map
    (1, 0, 0) to (0, 1, 0): the x-coordinate of the result is not zero. *)
Lemma rotate_quarter_turn_is_not_exact :
  rotate (mkPosition 1 0 0) 0 0 90 <> mkPosition 0 1 0.
Proof.
  rewrite rotate_by_quarter_turn. intros H. apply (f_equal xPos) in H. cbn in H.
  pose proof cos_quarter_turn as [Hpos _]. lra.
Qed.

(** [C7, amended] [rotate] with (x, y, z) = (0, 0, 90) maps (1, 0, 0) to a
    position within 2e-6 of (0, 1, 0) that is not (0, 1, 0): its x-coordinate
    is positive and below 2e-6, its y-coordinate is at most 1 and above
    1 - 4e-12, its z-coordinate is 0. *)
Theorem rotate_quarter_turn_approximate :
  0 < xPos (rotate (mkPosition 1 0 0) 0 0 90) < 2 / 1000000 /\
  1 - 4 / 1000000000000 < yPos (rotate (mkPosition 1 0 0) 0 0 90) <= 1 /\
  zPos (rotate (mkPosition 1 0 0) 0 0 90) = 0.
Proof.
  rewrite rotate_by_quarter_turn. cbn [xPos yPos zPos].
  pose proof cos_quarter_turn. pose proof sin_quarter_turn.
  split; [lra |]. split; [lra | reflexivity].
Qed.

End RotationFacts.

(** ** Facts about the texture table and the material list *)

Section TableFacts.

Lemma compare_refl a : compare a a = 0.
Proof.
  unfold compare. pose proof (String.compare_antisym a a) as H.
  destruct (String.compare a a); cbn in H; congruence.
Qed.

Lemma compare_zero a b : (compare a b =? 0) = true <-> a = b.
Proof.
  split.
  - unfold compare. destruct (String.compare a b) eqn:E; cbn; try discriminate.
    intros _. by apply String.compare_eq_iff.
  - intros ->. by rewrite compare_refl.
Qed.

Lemma compare_nonzero a b : (compare a b =? 0) = false <-> a <> b.
Proof.
  rewrite <- compare_zero. destruct (compare a b =? 0); split; congruence.
Qed.

Lemma length_entries s : table_ok s -> length (entries s) = Z.to_nat (m_loadedTextures s).
Proof. intros [Hlen Hn]. unfold entries. rewrite length_take_le; lia. Qed.

Lemma texture_at_entries s i :
  table_ok s -> (i < Z.to_nat (m_loadedTextures s))%nat ->
  texture_at s (Z.of_nat i) = entries s !! i.
Proof.
  intros [Hlen Hn] Hi. unfold texture_at, entries.
  rewrite lookup_take_lt by done. rewrite Nat2Z.id.
  destruct (0 <=? Z.of_nat i) eqn:E1; [| lia].
  destruct (Z.of_nat i <? 16) eqn:E2; [done | lia].
Qed.

Lemma texture_at_is_Some s i :
  length (m_textureIDs s) = 16%nat -> 0 <= i < 16 -> is_Some (texture_at s i).
Proof.
  intros Hlen Hi. unfold texture_at.
  destruct (0 <=? i) eqn:E1; [| lia]. destruct (i <? 16) eqn:E2; [| lia].
  apply lookup_lt_is_Some. lia.
Qed.

Lemma texture_at_None s i : ~ 0 <= i < 16 -> texture_at s i = None.
Proof.
  intros Hi. unfold texture_at.
  destruct (0 <=? i) eqn:E1; destruct (i <? 16) eqn:E2; try done. lia.
Qed.

(** The conversion to [int] keeps a value below 2^31 and takes 2^32 off a
    larger one. *)
Lemma to_int32_small z : -2147483648 <= z < 2147483648 -> to_int32 z = z.
Proof. unfold to_int32. intros H. Z.div_mod_to_equations. lia. Qed.

Lemma to_int32_large z :
  2147483648 <= z < 4294967296 -> to_int32 z = z - 4294967296.
Proof. unfold to_int32. intros H. Z.div_mod_to_equations. lia. Qed.

(** The three loops stop at once when [bFound] is set. *)
Lemma FindTextureID_loop_found s t textureID index :
  FindTextureID_loop s t textureID index true = Ok textureID.
Proof. simp FindTextureID_loop. by destruct (Z_lt_dec _ _). Qed.

Lemma FindTextureSlot_loop_found s t textureSlot index :
  FindTextureSlot_loop s t textureSlot index true = Ok textureSlot.
Proof. simp FindTextureSlot_loop. by destruct (Z_lt_dec _ _). Qed.

Lemma FindMaterial_loop_found s t material index :
  FindMaterial_loop s t material index true = material.
Proof. simp FindMaterial_loop. by destruct (lt_dec _ _). Qed.

(** The loop of [FindTextureID], started at [k] with nothing found, scans the
    loaded entries from [k] on. *)
Lemma FindTextureID_loop_scan s t :
  table_ok s ->
  forall d k textureID, (k + d = Z.to_nat (m_loadedTextures s))%nat ->
  FindTextureID_loop s t textureID (Z.of_nat k) false =
  Ok (match list_find (has_tag t) (drop k (entries s)) with
      | Some (_, e) => to_int32 (TEXTURE_INFO.ID e)
      | None => textureID
      end).
Proof.
  intros Hok. induction d as [| d IH]; intros k textureID Hk.
  - simp FindTextureID_loop. destruct (Z_lt_dec _ _) as [Hlt | Hge]; [lia |].
    cbn. rewrite drop_ge; [done |]. rewrite length_entries by done. lia.
  - simp FindTextureID_loop. destruct (Z_lt_dec _ _) as [Hlt | Hge]; [| lia].
    cbn. rewrite texture_at_entries by (done || lia).
    destruct (entries s !! k) as [e |] eqn:He.
    2:{ apply lookup_ge_None in He. rewrite length_entries in He by done. lia. }
    cbn. rewrite (drop_S _ _ _ He). cbn.
    destruct (compare (TEXTURE_INFO.tag e) t =? 0) eqn:Hc; cbn.
    + apply compare_zero in Hc. rewrite FindTextureID_loop_found.
      rewrite decide_True by done. done.
    + apply compare_nonzero in Hc. rewrite decide_False by done.
      replace (Z.of_nat k + 1) with (Z.of_nat (S k)) by lia.
      rewrite IH by lia. by destruct (list_find _ _) as [[i e'] |].
Qed.

Lemma FindTextureSlot_loop_scan s t :
  table_ok s ->
  forall d k textureSlot, (k + d = Z.to_nat (m_loadedTextures s))%nat ->
  FindTextureSlot_loop s t textureSlot (Z.of_nat k) false =
  Ok (match list_find (has_tag t) (drop k (entries s)) with
      | Some (i, _) => Z.of_nat (k + i)
      | None => textureSlot
      end).
Proof.
  intros Hok. induction d as [| d IH]; intros k textureSlot Hk.
  - simp FindTextureSlot_loop. destruct (Z_lt_dec _ _) as [Hlt | Hge]; [lia |].
    cbn. rewrite drop_ge; [done |]. rewrite length_entries by done. lia.
  - simp FindTextureSlot_loop. destruct (Z_lt_dec _ _) as [Hlt | Hge]; [| lia].
    cbn. rewrite texture_at_entries by (done || lia).
    destruct (entries s !! k) as [e |] eqn:He.
    2:{ apply lookup_ge_None in He. rewrite length_entries in He by done. lia. }
    cbn. rewrite (drop_S _ _ _ He). cbn.
    destruct (compare (TEXTURE_INFO.tag e) t =? 0) eqn:Hc; cbn.
    + apply compare_zero in Hc. rewrite FindTextureSlot_loop_found.
      rewrite decide_True by done. cbn. do 2 f_equal. lia.
    + apply compare_nonzero in Hc. rewrite decide_False by done.
      replace (Z.of_nat k + 1) with (Z.of_nat (S k)) by lia.
      rewrite IH by lia. destruct (list_find _ _) as [[i e'] |]; cbn; [| done].
      do 2 f_equal. lia.
Qed.

Lemma FindMaterial_loop_scan s t :
  forall d k material, (k + d = length (m_objectMaterials s))%nat ->
  FindMaterial_loop s t material k false =
  match list_find (has_material_tag t) (drop k (m_objectMaterials s)) with
  | Some (_, e) => copy_material material e
  | None => material
  end.
Proof.
  induction d as [| d IH]; intros k material Hk.
  - simp FindMaterial_loop. destruct (lt_dec _ _) as [Hlt | Hge]; [lia |].
    cbn. rewrite drop_ge; [done | lia].
  - simp FindMaterial_loop. destruct (lt_dec _ _) as [Hlt | Hge]; [| lia].
    cbn. destruct (m_objectMaterials s !! k) as [e |] eqn:He.
    2:{ apply lookup_ge_None in He. lia. }
    cbn. rewrite (drop_S _ _ _ He). cbn.
    destruct (compare (OBJECT_MATERIAL.tag e) t =? 0) eqn:Hc; cbn.
    + apply compare_zero in Hc. rewrite FindMaterial_loop_found.
      rewrite decide_True by done. done.
    + apply compare_nonzero in Hc. rewrite decide_False by done.
      replace (k + 1)%nat with (S k) by lia.
      rewrite IH by lia. by destruct (list_find _ _) as [[i e'] |].
Qed.

Lemma first_match_list_find {A : Type} (tag_of : A -> string) t
    (P : A -> Prop) `{!forall x, Decision (P x)} (l : list A) i e :
  (forall x, P x <-> tag_of x = t) ->
  first_match tag_of t l i e ->
  list_find P l = Some (i, e).
Proof.
  intros HP (Hi & Ht & Hfirst). apply list_find_Some. split; [done |].
  split; [by apply HP |]. intros j y Hj Hlt Hy. by apply (Hfirst j y Hlt Hj), HP.
Qed.

Lemma absent_list_find {A : Type} (tag_of : A -> string) t
    (P : A -> Prop) `{!forall x, Decision (P x)} (l : list A) :
  (forall x, P x <-> tag_of x = t) ->
  absent tag_of t l -> list_find P l = None.
Proof.
  intros HP Habs. apply list_find_None, Forall_forall.
  intros x Hx Hy. by apply (Habs x Hx), HP.
Qed.

Lemma FindTextureID_scan s t :
  table_ok s ->
  FindTextureID t s =
  Ok (match list_find (has_tag t) (entries s) with
      | Some (_, e) => to_int32 (TEXTURE_INFO.ID e)
      | None => -1
      end).
Proof.
  intros Hok. unfold FindTextureID.
  rewrite (FindTextureID_loop_scan s t Hok (Z.to_nat (m_loadedTextures s)) 0) by lia.
  by rewrite drop_0.
Qed.

Lemma FindTextureSlot_scan s t :
  table_ok s ->
  FindTextureSlot t s =
  Ok (match list_find (has_tag t) (entries s) with
      | Some (i, _) => Z.of_nat i
      | None => -1
      end).
Proof.
  intros Hok. unfold FindTextureSlot.
  rewrite (FindTextureSlot_loop_scan s t Hok (Z.to_nat (m_loadedTextures s)) 0) by lia.
  by rewrite drop_0.
Qed.

Lemma FindMaterial_scan s t material :
  m_objectMaterials s <> [] ->
  FindMaterial t material s =
  (true,
   match list_find (has_material_tag t) (m_objectMaterials s) with
   | Some (_, e) => copy_material material e
   | None => material
   end).
Proof.
  intros Hne. unfold FindMaterial.
  destruct (m_objectMaterials s) as [| m ms] eqn:E; [done |]. cbn [length Nat.eqb].
  rewrite <- E.
  rewrite (FindMaterial_loop_scan s t (length (m_objectMaterials s)) 0) by lia.
  by rewrite drop_0.
Qed.

(** A tag that no entry carries: [FindMaterial] on a non-empty list still
    returns [true], and the output material is untouched. *)
Lemma FindMaterial_absent s t material :
  m_objectMaterials s <> [] ->
  absent OBJECT_MATERIAL.tag t (m_objectMaterials s) ->
  FindMaterial t material s = (true, material).
Proof.
  intros Hne Habs. rewrite FindMaterial_scan by done.
  by rewrite (absent_list_find OBJECT_MATERIAL.tag t (has_material_tag t)).
Qed.

(** [C1] On the material list with the single entry "default_material",
    [FindMaterial] asked for the tag "missing", which no entry carries,
    returns [true] (the specification asks for [false]); the output material is left
    as it was. *)
Theorem FindMaterial_absent_tag_returns_true :
  forall material,
    absent OBJECT_MATERIAL.tag "missing" (m_objectMaterials Examples.one_material) /\
    FindMaterial "missing" material Examples.one_material = (true, material).
Proof.
  intros material. split.
  - intros e He. apply list_elem_of_singleton in He as ->. discriminate.
  - rewrite FindMaterial_scan by discriminate. reflexivity.
Qed.

(** [C3, as stated, fails] The ID is not always returned as it is stored: a
    texture registered under the OpenGL name 3000000000 is the first (and
    only) match of its tag, and [FindTextureID] returns -1294967296;
    registered under the name 4294967295 it is found and [FindTextureID]
    returns -1, the value that stands for a tag that was not found. *)
Lemma FindTextureID_large_name :
  table_ok Examples.large_name /\
  first_match TEXTURE_INFO.tag "texture" (entries Examples.large_name)
    0 (TEXTURE_INFO.mk "texture" 3000000000) /\
  FindTextureID "texture" Examples.large_name = Ok (-1294967296) /\
  FindTextureID "texture" Examples.large_name <> Ok 3000000000 /\
  table_ok Examples.largest_name /\
  first_match TEXTURE_INFO.tag "texture" (entries Examples.largest_name)
    0 (TEXTURE_INFO.mk "texture" 4294967295) /\
  FindTextureID "texture" Examples.largest_name = Ok (-1).
Proof.
  assert (table_ok Examples.large_name) as Hok by (split; [reflexivity | cbn; lia]).
  assert (table_ok Examples.largest_name) as Hok' by (split; [reflexivity | cbn; lia]).
  split; [done |]. split.
  { split; [reflexivity |]. split; [reflexivity |]. intros j e' Hj. lia. }
  split; [by rewrite FindTextureID_scan |].
  split; [by rewrite FindTextureID_scan |].
  split; [done |]. split.
  { split; [reflexivity |]. split; [reflexivity |]. intros j e' Hj. lia. }
  by rewrite FindTextureID_scan.
Qed.

(** [C3, amended] On a sound texture table, [FindTextureID] returns the ID
    of the first loaded entry, in insertion order, whose tag equals the given
    tag, read from its unsigned 32-bit field into an [int]: the ID itself
    when it is below 2^31, the ID minus 2^32 from there on; it returns -1
    when no loaded entry has that tag. [FindMaterial], when some entry of the
    material list has the tag, returns [true] and has copied the five fields
    of the first such entry into the output material. *)
Theorem lookup_returns_first_match s t :
  table_ok s ->
  (forall i e, first_match TEXTURE_INFO.tag t (entries s) i e ->
     FindTextureID t s = Ok (to_int32 (TEXTURE_INFO.ID e)) /\
     (0 <= TEXTURE_INFO.ID e < 2147483648 ->
        FindTextureID t s = Ok (TEXTURE_INFO.ID e)) /\
     (2147483648 <= TEXTURE_INFO.ID e < 4294967296 ->
        FindTextureID t s = Ok (TEXTURE_INFO.ID e - 4294967296))) /\
  (absent TEXTURE_INFO.tag t (entries s) -> FindTextureID t s = Ok (-1)) /\
  (forall i e material,
     first_match OBJECT_MATERIAL.tag t (m_objectMaterials s) i e ->
     exists material',
       FindMaterial t material s = (true, material') /\
       OBJECT_MATERIAL.ambientColor material' = OBJECT_MATERIAL.ambientColor e /\
       OBJECT_MATERIAL.ambientStrength material' = OBJECT_MATERIAL.ambientStrength e /\
       OBJECT_MATERIAL.diffuseColor material' = OBJECT_MATERIAL.diffuseColor e /\
       OBJECT_MATERIAL.specularColor material' = OBJECT_MATERIAL.specularColor e /\
       OBJECT_MATERIAL.shininess material' = OBJECT_MATERIAL.shininess e).
Proof.
  intros Hok. split; [| split].
  - intros i e Hm. rewrite FindTextureID_scan by done.
    rewrite (first_match_list_find TEXTURE_INFO.tag t (has_tag t) _ i e) by done.
    split; [done |]. split; intros Hid.
    + by rewrite to_int32_small by lia.
    + by rewrite to_int32_large by lia.
  - intros Habs. rewrite FindTextureID_scan by done.
    by rewrite (absent_list_find TEXTURE_INFO.tag t (has_tag t)).
  - intros i e material Hm. eexists. split.
    + rewrite FindMaterial_scan.
      * by rewrite (first_match_list_find OBJECT_MATERIAL.tag t (has_material_tag t) _ i e).
      * destruct Hm as (Hi & _). intros E. by rewrite E in Hi.
    + done.
Qed.

(** In a table where "page" was registered twice (IDs 8, then 9) the lookup
    yields 8; a tag never registered yields -1; of two "wire_material"
    entries the first one is copied. *)
Lemma lookup_returns_first_match_witness :
  FindTextureID "page" Examples.duplicated = Ok 8 /\
  FindTextureID "rubiks" Examples.duplicated = Ok (-1) /\
  exists material',
    FindMaterial "wire_material" Materials.paperMaterial Examples.duplicated
      = (true, material') /\
    OBJECT_MATERIAL.shininess material' = 100.5%R.
Proof.
  assert (table_ok Examples.duplicated) as Hok by (split; [reflexivity | cbn; lia]).
  split; [| split].
  - apply (proj1 (lookup_returns_first_match Examples.duplicated "page" Hok)
             1%nat (TEXTURE_INFO.mk "page" 8)); [| cbn; lia].
    split; [reflexivity |]. split; [reflexivity |].
    intros [| j] e' Hj; [| lia]. intros [= <-]. discriminate.
  - apply (proj1 (proj2 (lookup_returns_first_match Examples.duplicated "rubiks" Hok))).
    intros e He. cbn in He.
    repeat (apply elem_of_cons in He as [-> | He]; [discriminate |]).
    by apply elem_of_nil in He.
  - destruct (proj2 (proj2 (lookup_returns_first_match Examples.duplicated
                               "wire_material" Hok))
                1%nat Materials.wireMaterial Materials.paperMaterial)
      as (material' & Hfind & _ & _ & _ & _ & Hshine).
    + split; [reflexivity |]. split; [reflexivity |].
      intros [| j] e' Hj; [| lia]. intros [= <-]. discriminate.
    + exists material'. split; [exact Hfind | exact Hshine].
Defined.

End TableFacts.

(** ** Facts about loading and releasing textures *)

Section TextureFacts.

Lemma bind_run {A B : Type} (m : M A) (k : A -> M B) w :
  (m ≫= k) w = match m w with Ret a w' => k a w' | Crash f w' => Crash f w' end.
Proof. reflexivity. Qed.

(** The run of [CreateGLTexture], case by case, as far as the object is
    concerned. *)
Lemma CreateGLTexture_cases filename tag w :
  match disk w filename with
  | None =>
      exists w', CreateGLTexture filename tag w = Ret false w' /\ self w' = self w
  | Some img =>
      if (colorChannels img =? 3) || (colorChannels img =? 4) then
        match texture_at (self w) (m_loadedTextures (self w)) with
        | Some _ =>
            exists w',
              CreateGLTexture filename tag w = Ret true w' /\
              self w' =
                mkSceneManager (m_pShaderManager (self w)) (m_basicMeshes (self w))
                  (m_loadedTextures (self w) + 1)
                  (<[Z.to_nat (m_loadedTextures (self w)) :=
                       TEXTURE_INFO.mk tag (gl_name w (gl_generated w))]>
                     (m_textureIDs (self w)))
                  (m_objectMaterials (self w))
        | None =>
            exists w',
              CreateGLTexture filename tag w
              = Crash (OutOfBounds (m_loadedTextures (self w))) w'
        end
      else
        exists w', CreateGLTexture filename tag w = Ret false w' /\ self w' = self w
  end.
Proof.
  destruct w as [s cs files names generated g].
  cbv beta iota zeta delta
    [CreateGLTexture mbind M_bind mret M_ret call do_stbi_load glGenTextures1 this
     set_texture set_loadedTextures store fault emit with_self
     self calls disk gl_name gl_generated garbage
     m_pShaderManager m_basicMeshes m_loadedTextures m_textureIDs m_objectMaterials].
  destruct (files filename) as [img |]; [| eauto].
  destruct (colorChannels img =? 3) eqn:E3; cbn [orb].
  - destruct (texture_at s _); eauto.
  - destruct (colorChannels img =? 4) eqn:E4; [| eauto].
    destruct (texture_at s _); eauto.
Qed.

Lemma entries_after_store s tag id :
  table_ok s -> m_loadedTextures s < 16 ->
  entries (mkSceneManager (m_pShaderManager s) (m_basicMeshes s)
             (m_loadedTextures s + 1)
             (<[Z.to_nat (m_loadedTextures s) := TEXTURE_INFO.mk tag id]> (m_textureIDs s))
             (m_objectMaterials s))
  = entries s ++ [TEXTURE_INFO.mk tag id].
Proof.
  intros [Hlen Hn] Hroom. unfold entries. cbn.
  replace (Z.to_nat (m_loadedTextures s + 1)) with (S (Z.to_nat (m_loadedTextures s))) by lia.
  rewrite (take_S_r _ _ (TEXTURE_INFO.mk tag id)).
  - by rewrite take_insert_ge.
  - apply list_lookup_insert_eq. lia.
Qed.

(** The soundness of the table is established by the constructor and kept by
    every call of [CreateGLTexture] that returns. *)
Lemma table_ok_new p : table_ok (SceneManager_new p).
Proof. split; [reflexivity | cbn; lia]. Qed.

Lemma CreateGLTexture_keeps_table_ok filename tag w b w' :
  table_ok (self w) ->
  CreateGLTexture filename tag w = Ret b w' ->
  table_ok (self w').
Proof.
  intros [Hlen Hn] Hrun. pose proof (CreateGLTexture_cases filename tag w) as Hcases.
  destruct (disk w filename) as [img |].
  - destruct ((colorChannels img =? 3) || (colorChannels img =? 4)).
    + destruct (texture_at (self w) (m_loadedTextures (self w))) as [e |] eqn:Hat.
      * destruct Hcases as (w1 & Hw1 & Hself).
        assert (w' = w1) as -> by congruence. rewrite Hself.
        split; cbn; [by rewrite length_insert |].
        destruct (Z_lt_dec (m_loadedTextures (self w)) 16); [lia |].
        rewrite texture_at_None in Hat by lia. done.
      * destruct Hcases as (w1 & Hw1). congruence.
    + destruct Hcases as (w1 & Hw1 & Hself).
      assert (w' = w1) as -> by congruence. by rewrite Hself.
  - destruct Hcases as (w1 & Hw1 & Hself).
    assert (w' = w1) as -> by congruence. by rewrite Hself.
Qed.

(** [C5] [CreateGLTexture] returns [false] exactly when the image does not
    decode or its channel count is neither 3 nor 4, and then leaves
    [m_textureIDs] and [m_loadedTextures] as they were; when it returns
    [true], one entry with the given tag has been appended to the loaded
    entries and [m_loadedTextures] has grown by one; and it does return
    [true] for a supported image while a slot is free. *)
Theorem CreateGLTexture_result filename tag w :
  table_ok (self w) ->
  ((exists w', CreateGLTexture filename tag w = Ret false w') <-> load_failure w filename) /\
  (forall w', CreateGLTexture filename tag w = Ret false w' ->
     m_textureIDs (self w') = m_textureIDs (self w) /\
     m_loadedTextures (self w') = m_loadedTextures (self w)) /\
  (forall w', CreateGLTexture filename tag w = Ret true w' ->
     m_loadedTextures (self w') = m_loadedTextures (self w) + 1 /\
     exists id, entries (self w') = entries (self w) ++ [TEXTURE_INFO.mk tag id]) /\
  (~ load_failure w filename -> m_loadedTextures (self w) < 16 ->
     exists w', CreateGLTexture filename tag w = Ret true w').
Proof.
  intros Hok. pose proof (CreateGLTexture_cases filename tag w) as Hrun.
  unfold load_failure.
  destruct (disk w filename) as [img |] eqn:Hdisk.
  - destruct ((colorChannels img =? 3) || (colorChannels img =? 4)) eqn:Hch.
    + assert (colorChannels img = 3 \/ colorChannels img = 4) as Hsupported by lia.
      assert (~ (Some img = None \/
                 exists img', Some img = Some img' /\
                   colorChannels img' <> 3 /\ colorChannels img' <> 4)) as Hfine.
      { intros [? | (img' & [= <-] & ? & ?)]; [done | lia]. }
      destruct (texture_at (self w) (m_loadedTextures (self w))) as [e |] eqn:Hat.
      * destruct Hrun as (w1 & Hrun & Hself).
        assert (m_loadedTextures (self w) < 16) as Hroom.
        { destruct (Z_lt_dec (m_loadedTextures (self w)) 16); [done |].
          rewrite texture_at_None in Hat by lia. done. }
        split; [split | split; [| split]].
        -- intros (w' & Hw'). congruence.
        -- intros Hfail. by destruct Hfine.
        -- intros w' Hw'. congruence.
        -- intros w' Hw'. assert (w' = w1) as -> by congruence. rewrite Hself.
           split; [done |]. eexists. by apply entries_after_store.
        -- eauto.
      * destruct Hrun as (w1 & Hrun).
        split; [split | split; [| split]].
        -- intros (w' & Hw'). congruence.
        -- intros Hfail. by destruct Hfine.
        -- intros w' Hw'. congruence.
        -- intros w' Hw'. congruence.
        -- intros _ Hroom. destruct Hok as [Hlen Hn].
           destruct (texture_at_is_Some (self w) (m_loadedTextures (self w)) Hlen)
             as [e He]; [lia | congruence].
    + destruct Hrun as (w1 & Hrun & Hself).
      assert (colorChannels img <> 3 /\ colorChannels img <> 4) as [H3 H4] by lia.
      split; [split | split; [| split]].
      * intros _. right. eauto.
      * eauto.
      * intros w' Hw'. assert (w' = w1) as -> by congruence. by rewrite Hself.
      * intros w' Hw'. congruence.
      * intros Hnot. exfalso. apply Hnot. right. eauto.
  - destruct Hrun as (w1 & Hrun & Hself).
    split; [split | split; [| split]].
    + intros _. by left.
    + eauto.
    + intros w' Hw'. assert (w' = w1) as -> by congruence. by rewrite Hself.
    + intros w' Hw'. congruence.
    + intros Hnot. exfalso. apply Hnot. by left.
Qed.


(** On a new scene manager, with a file that decodes to an RGB image, the
    call returns [true]. *)
Lemma CreateGLTexture_result_witness :
  exists w',
    CreateGLTexture "texture.jpg" "texture" (Examples.world Examples.fresh) = Ret true w'.
Proof.
  assert (table_ok (self (Examples.world Examples.fresh))) as Hok
    by (split; [reflexivity | cbn; lia]).
  apply (proj2 (proj2 (proj2
    (CreateGLTexture_result "texture.jpg" "texture" (Examples.world Examples.fresh) Hok)))).
  - intros [Hnone | (img & Himg & H3 & H4)]; [discriminate |].
    injection Himg as <-. by apply H3.
  - cbn. lia.
Defined.

(** The two failures, run on a new scene manager: a file that does not
    decode, and a one-channel image (for which a texture name has already
    been generated and bound when the method gives up). *)
Example CreateGLTexture_missing_file :
  CreateGLTexture "texture.jpg" "texture" (Examples.world_without_files Examples.fresh)
  = Ret false
      (emit (Examples.world_without_files Examples.fresh)
         [ stbi_set_flip_vertically_on_load true; stbi_load "texture.jpg";
           cout (CouldNotLoadImage "texture.jpg") ]).
Proof. reflexivity. Qed.

Example CreateGLTexture_one_channel :
  exists w',
    CreateGLTexture "texture.jpg" "texture" (Examples.world_of_grey_files Examples.fresh)
    = Ret false w' /\
    self w' = Examples.fresh /\
    calls w' =
      [ stbi_set_flip_vertically_on_load true; stbi_load "texture.jpg";
        cout (SuccessfullyLoadedImage "texture.jpg" 64 64 1);
        glGenTextures 1 1; glBindTexture GL_TEXTURE_2D 1;
        glTexParameteri GL_TEXTURE_2D GL_TEXTURE_WRAP_S GL_REPEAT;
        glTexParameteri GL_TEXTURE_2D GL_TEXTURE_WRAP_T GL_REPEAT;
        glTexParameteri GL_TEXTURE_2D GL_TEXTURE_MIN_FILTER GL_LINEAR;
        glTexParameteri GL_TEXTURE_2D GL_TEXTURE_MAG_FILTER GL_LINEAR;
        cout (NotImplementedChannels 1) ].
Proof. eexists. split; [vm_compute; reflexivity |]. split; reflexivity. Qed.

(** With the table full, a supported image makes [CreateGLTexture] store
    outside the array. *)
Lemma CreateGLTexture_full filename tag w img :
  m_loadedTextures (self w) = 16 ->
  disk w filename = Some img ->
  colorChannels img = 3 \/ colorChannels img = 4 ->
  exists w', CreateGLTexture filename tag w = Crash (OutOfBounds 16) w'.
Proof.
  intros Hfull Hdisk Hch. pose proof (CreateGLTexture_cases filename tag w) as Hrun.
  rewrite Hdisk in Hrun.
  replace ((colorChannels img =? 3) || (colorChannels img =? 4)) with true in Hrun by lia.
  rewrite Hfull in Hrun. rewrite texture_at_None in Hrun by lia. exact Hrun.
Qed.

(** [C4] Sixteen calls of [CreateGLTexture] on a new scene manager, each on
    a file that decodes to an RGB image, fill the table
    ([m_loadedTextures = 16]); the seventeenth call stores its entry at index
    16, outside [m_textureIDs[16]]: nothing in the method checks the
    capacity. *)
Theorem CreateGLTexture_overflows_table :
  (exists w, Examples.load 16 (Examples.world Examples.fresh) = Ret tt w /\
             m_loadedTextures (self w) = 16) /\
  (exists w, Examples.load 17 (Examples.world Examples.fresh) = Crash (OutOfBounds 16) w).
Proof.
  split.
  - eexists. split; [vm_compute; reflexivity | reflexivity].
  - eexists. vm_compute. reflexivity.
Qed.

(** One round of the loop of [DestroyGLTextures] on element [i] of a sound
    array: one [glGenTextures] call, whose result replaces the ID. *)
Lemma DestroyGLTextures_round w i :
  length (m_textureIDs (self w)) = 16%nat -> (i < 16)%nat ->
  exists w' name,
    (s ← this;
     match texture_at s (Z.of_nat i) with
     | None => fault (OutOfBounds (Z.of_nat i))
     | Some e =>
         name ← glGenTextures1;
         set_texture (Z.of_nat i) name (TEXTURE_INFO.tag e)
     end) w = Ret tt w' /\
    calls w' = calls w ++ [glGenTextures 1 name] /\
    length (m_textureIDs (self w')) = 16%nat.
Proof.
  intros Hlen Hi.
  destruct (texture_at_is_Some (self w) (Z.of_nat i) Hlen) as [e He]; [lia |].
  destruct w as [s cs files names generated g].
  cbv beta iota zeta delta
    [mbind M_bind mret M_ret glGenTextures1 this set_texture store fault with_self
     self calls disk gl_name gl_generated garbage
     m_pShaderManager m_basicMeshes m_loadedTextures m_textureIDs m_objectMaterials]
    in *.
  rewrite He. cbv beta iota. rewrite He. do 2 eexists. split; [reflexivity |].
  split; [reflexivity |]. cbn. by rewrite length_insert.
Qed.

Lemma DestroyGLTextures_loop count : forall lo w,
  length (m_textureIDs (self w)) = 16%nat -> (lo + count <= 16)%nat ->
  exists w' l,
    for_loop lo count
      (fun i _ =>
         s ← this;
         match texture_at s (Z.of_nat i) with
         | None => fault (OutOfBounds (Z.of_nat i))
         | Some e =>
             name ← glGenTextures1;
             set_texture (Z.of_nat i) name (TEXTURE_INFO.tag e)
         end) tt w = Ret tt w' /\
    calls w' = calls w ++ l /\
    length l = count /\
    Forall (fun c => is_glGenTextures c = true) l.
Proof.
  induction count as [| count IH]; intros lo w Hlen Hlo.
  - exists w, []. cbn. by rewrite app_nil_r.
  - destruct (DestroyGLTextures_round w lo Hlen) as (w1 & name & Hrun & Hcalls & Hlen1); [lia |].
    destruct (IH (S lo) w1 Hlen1) as (w2 & l & Hrest & Hcalls2 & Hlength & Hall); [lia |].
    exists w2, (glGenTextures 1 name :: l).
    cbn [for_loop]. rewrite bind_run, Hrun. split; [exact Hrest |].
    split; [| split].
    + rewrite Hcalls2, Hcalls, <- app_assoc. done.
    + cbn. by rewrite Hlength.
    + by constructor.
Qed.

(** [C9] On a sound texture table, [DestroyGLTextures] issues one call per
    loaded texture, but each of these calls is [glGenTextures]: it issues no
    texture-deletion call at all. *)
Theorem DestroyGLTextures_generates_names w :
  table_ok (self w) ->
  exists w' l,
    DestroyGLTextures w = Ret tt w' /\
    calls w' = calls w ++ l /\
    length l = Z.to_nat (m_loadedTextures (self w)) /\
    Forall (fun c => is_glGenTextures c = true) l /\
    filter (fun c => is_glDeleteTextures c = true) l = [].
Proof.
  intros [Hlen Hn].
  destruct (DestroyGLTextures_loop (Z.to_nat (m_loadedTextures (self w))) 0 w Hlen)
    as (w' & l & Hrun & Hcalls & Hlength & Hall); [lia |].
  exists w', l. split; [exact Hrun |]. split; [done |]. split; [done |]. split; [done |].
  clear -Hall. induction Hall as [| c l Hc Hall IH]; [done |].
  rewrite filter_cons, IH. destruct c; try discriminate. done.
Qed.

(** The destructor of a scene manager holding one texture: the log ends with
    a [glGenTextures] call and holds no [glDeleteTextures] call. *)
Lemma DestroyGLTextures_generates_names_witness :
  exists w' l,
    DestroyGLTextures (Examples.world Examples.one_texture) = Ret tt w' /\
    calls w' = [] ++ l /\
    length l = 1%nat /\
    Forall (fun c => is_glGenTextures c = true) l /\
    filter (fun c => is_glDeleteTextures c = true) l = [].
Proof.
  apply (DestroyGLTextures_generates_names (Examples.world Examples.one_texture)).
  split; [reflexivity | cbn; lia].
Defined.

Example destructor_log :
  exists w',
    destructor (Examples.world Examples.one_texture) = Ret tt w' /\
    calls w' = [delete_ShapeMeshes; glGenTextures 1 1].
Proof. eexists. split; [vm_compute; reflexivity | reflexivity]. Qed.

(** Without a shader manager [SetShaderTexture] issues no call. *)
Lemma SetShaderTexture_without_shader t w :
  m_pShaderManager (self w) = NULL -> SetShaderTexture t w = Ret tt w.
Proof. intros H. unfold SetShaderTexture. rewrite bind_run. cbn. by rewrite H. Qed.

(** [C10, as stated, fails] On a scene manager without shader manager, with
    two textures loaded, [SetShaderTexture] on the tag "shadow", which no
    loaded entry carries, returns with the world as it was: the log stays
    empty, so neither [bUseTexture] nor [objectTexture] is set. *)
Lemma SetShaderTexture_absent_tag_sets_nothing :
  table_ok Examples.headless_with_textures /\
  absent TEXTURE_INFO.tag "shadow" (entries Examples.headless_with_textures) /\
  exists w',
    SetShaderTexture "shadow" (Examples.world Examples.headless_with_textures)
      = Ret tt w' /\
    calls w' = [].
Proof.
  split; [split; [reflexivity | cbn; lia] |]. split.
  - intros e He. cbn in He.
    repeat (apply elem_of_cons in He as [-> | He]; [discriminate |]).
    by apply elem_of_nil in He.
  - eexists. split; [by apply SetShaderTexture_without_shader | reflexivity].
Qed.

(** [C10, amended] On a sound texture table, [SetShaderTexture] on a tag
    that no loaded entry carries: when [m_pShaderManager] is not NULL it sets
    [bUseTexture] to true (the [int] 1) and then passes -1 as the
    [objectTexture] sampler, and makes no other call; when
    [m_pShaderManager] is NULL it makes no call at all. *)
Theorem SetShaderTexture_absent_tag w t :
  table_ok (self w) ->
  absent TEXTURE_INFO.tag t (entries (self w)) ->
  (m_pShaderManager (self w) = Ptr ->
   SetShaderTexture t w =
   Ret tt (emit w [ setIntValue "bUseTexture" 1;
                    setSampler2DValue "objectTexture" (-1) ])) /\
  (m_pShaderManager (self w) = NULL -> SetShaderTexture t w = Ret tt w).
Proof.
  intros Hok Habs. split; [| apply SetShaderTexture_without_shader].
  intros Hptr.
  pose proof (FindTextureSlot_scan (self w) t Hok) as Hslot.
  rewrite (absent_list_find TEXTURE_INFO.tag t (has_tag t)) in Hslot by done.
  destruct w as [s cs files names generated g].
  cbv beta iota zeta delta
    [SetShaderTexture mbind M_bind mret M_ret call this lift emit
     self calls disk gl_name gl_generated garbage] in *.
  rewrite Hptr, Hslot. cbv beta iota. by rewrite <- app_assoc.
Qed.

(** With the textures "pages", "page" and "page" loaded, the tag "rubiks" is
    absent: with a shader manager texturing is switched on and the sampler
    is -1. *)
Lemma SetShaderTexture_absent_tag_witness :
  SetShaderTexture "rubiks" (Examples.world Examples.duplicated) =
  Ret tt (emit (Examples.world Examples.duplicated)
            [ setIntValue "bUseTexture" 1; setSampler2DValue "objectTexture" (-1) ]).
Proof.
  apply (SetShaderTexture_absent_tag (Examples.world Examples.duplicated) "rubiks").
  - split; [reflexivity | cbn; lia].
  - intros e He. cbn in He.
    repeat (apply elem_of_cons in He as [-> | He]; [discriminate |]).
    by apply elem_of_nil in He.
  - reflexivity.
Defined.

(** After construction and [PrepareScene] the object can draw a frame: four
    textures, five materials. *)
Lemma prepared_ready :
  ready (self Examples.prepared) /\
  m_loadedTextures (self Examples.prepared) = 4 /\
  materials_defined (self Examples.prepared) = true /\
  map TEXTURE_INFO.tag (entries (self Examples.prepared))
    = ["pages"; "page"; "rubiks"; "shadow"].
Proof.
  assert (m_loadedTextures (self Examples.prepared) = 4) as Hn by (vm_compute; reflexivity).
  split; [| split; [exact Hn | split; vm_compute; reflexivity]].
  split; [vm_compute; reflexivity |]. split; [vm_compute; reflexivity |].
  split; [vm_compute; reflexivity | lia].
Qed.

(** The fifth [PrepareScene] on one scene manager is the seventeenth
    successful [CreateGLTexture]. *)
Example PrepareScene_five_times :
  exists w, Examples.prepared_five_times = Crash (OutOfBounds 16) w.
Proof. eexists. vm_compute. reflexivity. Qed.

End TextureFacts.

(** ** Facts about a frame of [RenderScene] *)

Section FrameFacts.
Variable s : SceneManager.
Variable g : nat -> R.
Hypothesis s_ready : ready s.

Lemma emit_nil w : emit w [] = w.
Proof. destruct w. unfold emit. cbn. by rewrite app_nil_r. Qed.

Lemma emit_emit w l1 l2 : emit (emit w l1) l2 = emit w (l1 ++ l2).
Proof. unfold emit. cbn. by rewrite app_assoc. Qed.

Lemma emits_ret {A : Type} (a : A) : emits s g (mret a) a [].
Proof. intros w _ _. by rewrite emit_nil. Qed.

Lemma emits_bind {A B : Type} (m : M A) (k : A -> M B) a b l1 l2 :
  emits s g m a l1 -> emits s g (k a) b l2 -> emits s g (m ≫= k) b (l1 ++ l2).
Proof.
  intros Hm Hk w Hs Hg. rewrite bind_run, (Hm w Hs Hg), (Hk (emit w l1)); [| done..].
  by rewrite emit_emit.
Qed.

Lemma emits_call c : emits s g (call c) tt [c].
Proof. by intros w _ _. Qed.

Lemma emits_shader c : emits s g (shader c) tt [c].
Proof.
  intros w Hs _. unfold shader. rewrite bind_run. cbn. rewrite Hs.
  by destruct s_ready as (-> & _).
Qed.

Lemma emits_meshes c : emits s g (meshes c) tt [c].
Proof.
  intros w Hs _. unfold meshes. rewrite bind_run. cbn. rewrite Hs.
  by destruct s_ready as (_ & -> & _).
Qed.

Lemma emits_this {B : Type} (k : SceneManager -> M B) b l :
  emits s g (k s) b l -> emits s g (this ≫= k) b l.
Proof. intros Hk w Hs Hg. rewrite bind_run. cbn. rewrite Hs. by apply Hk. Qed.

Lemma emits_lift {A : Type} (r : SceneManager -> Res A) a :
  r s = Ok a -> emits s g (lift r) a [].
Proof. intros Hr w Hs _. unfold lift. by rewrite Hs, Hr, emit_nil. Qed.

Lemma emits_eq {A : Type} (m : M A) a l l' :
  emits s g m a l -> l = l' -> emits s g m a l'.
Proof. by intros H <-. Qed.

Lemma SetTransformations_emits scaleXYZ xd yd zd positionXYZ :
  exists modelView,
    emits s g (SetTransformations scaleXYZ xd yd zd positionXYZ) tt
      [setMat4Value "model" modelView].
Proof.
  eexists. unfold SetTransformations. apply emits_this.
  destruct s_ready as (-> & _). apply emits_call.
Qed.

Lemma SetShaderColor_emits r gr b a :
  emits s g (SetShaderColor r gr b a) tt
    [setIntValue "bUseTexture" 0; setVec4Value "objectColor" r gr b a].
Proof.
  unfold SetShaderColor. apply emits_this. destruct s_ready as (-> & _).
  eapply emits_eq; [eapply emits_bind; apply emits_call | reflexivity].
Qed.

Lemma SetShaderTexture_emits t :
  exists slot,
    emits s g (SetShaderTexture t) tt
      [setIntValue "bUseTexture" 1; setSampler2DValue "objectTexture" slot].
Proof.
  destruct s_ready as (Hptr & _ & Hok).
  eexists. unfold SetShaderTexture. apply emits_this. rewrite Hptr.
  eapply emits_eq.
  - eapply emits_bind; [apply emits_call |].
    eapply emits_bind; [apply emits_lift, (FindTextureSlot_scan s t Hok) |].
    apply emits_call.
  - reflexivity.
Qed.

Lemma SetTextureUVScale_emits u v :
  emits s g (SetTextureUVScale u v) tt [setVec2Value "UVscale" u v].
Proof.
  unfold SetTextureUVScale. apply emits_this. destruct s_ready as (-> & _).
  apply emits_call.
Qed.

Lemma material_uniforms_emits material :
  emits s g
    (shader (setVec3Value "material.ambientColor" (OBJECT_MATERIAL.ambientColor material));;
     shader (setFloatValue "material.ambientStrength" (OBJECT_MATERIAL.ambientStrength material));;
     shader (setVec3Value "material.diffuseColor" (OBJECT_MATERIAL.diffuseColor material));;
     shader (setVec3Value "material.specularColor" (OBJECT_MATERIAL.specularColor material));;
     shader (setFloatValue "material.shininess" (OBJECT_MATERIAL.shininess material)))
    tt (material_uniforms material).
Proof.
  eapply emits_eq.
  - do 4 (eapply emits_bind; [apply emits_shader |]). apply emits_shader.
  - reflexivity.
Qed.

Lemma SetShaderMaterial_emits t :
  exists l,
    emits s g (SetShaderMaterial t) tt l /\
    labels l = Golden.material (materials_defined s).
Proof.
  unfold materials_defined.
  destruct (0 <? length (m_objectMaterials s))%nat eqn:Hdef.
  - assert (m_objectMaterials s <> []) as Hne.
    { intros E. rewrite E in Hdef. discriminate. }
    eexists. split.
    + intros w Hs Hg. unfold SetShaderMaterial. rewrite Hs, Hg, Hdef.
      rewrite FindMaterial_scan by done.
      apply (material_uniforms_emits _ w Hs Hg).
    + reflexivity.
  - exists []. split; [| done].
    intros w Hs Hg. unfold SetShaderMaterial. rewrite Hs, Hdef. by rewrite emit_nil.
Qed.

Lemma labels_app l1 l2 : labels (l1 ++ l2) = labels l1 ++ labels l2.
Proof. apply omap_app. Qed.

Lemma traces_ret {A : Type} (a : A) : traces s g (mret a) a [].
Proof. exists []. split; [apply emits_ret | done]. Qed.

Lemma traces_bind {A B : Type} (m : M A) (k : A -> M B) a b l1 l2 :
  traces s g m a l1 -> traces s g (k a) b l2 -> traces s g (m ≫= k) b (l1 ++ l2).
Proof.
  intros (c1 & H1 & <-) (c2 & H2 & <-). exists (c1 ++ c2).
  split; [eapply emits_bind; eassumption | apply labels_app].
Qed.

Lemma traces_eq {A : Type} (m : M A) a l l' :
  traces s g m a l -> l = l' -> traces s g m a l'.
Proof. by intros H <-. Qed.

Lemma traces_meshes m : traces s g (meshes (DrawMesh m)) tt [Draw m].
Proof. eexists. split; [apply emits_meshes | done]. Qed.

Lemma SetTransformations_traces scaleXYZ xd yd zd positionXYZ :
  traces s g (SetTransformations scaleXYZ xd yd zd positionXYZ) tt [Uniform "model"].
Proof.
  destruct (SetTransformations_emits scaleXYZ xd yd zd positionXYZ) as (mv & H).
  eexists. split; [exact H | done].
Qed.

Lemma SetShaderColor_traces r gr b a :
  traces s g (SetShaderColor r gr b a) tt [Uniform "bUseTexture"; Uniform "objectColor"].
Proof. eexists. split; [apply SetShaderColor_emits | done]. Qed.

Lemma SetShaderTexture_traces t :
  traces s g (SetShaderTexture t) tt [Uniform "bUseTexture"; Uniform "objectTexture"].
Proof.
  destruct (SetShaderTexture_emits t) as (slot & H).
  eexists. split; [exact H | done].
Qed.

Lemma SetTextureUVScale_traces u v :
  traces s g (SetTextureUVScale u v) tt [Uniform "UVscale"].
Proof. eexists. split; [apply SetTextureUVScale_emits | done]. Qed.

Lemma SetShaderMaterial_traces t :
  traces s g (SetShaderMaterial t) tt (Golden.material (materials_defined s)).
Proof. apply SetShaderMaterial_emits. Qed.

Lemma uninitialised_floats_traces n :
  traces s g (Scene.uninitialised_floats n) (replicate n (g 11%nat)) [].
Proof.
  exists []. split; [| done]. intros w _ Hg.
  unfold Scene.uninitialised_floats. by rewrite Hg, emit_nil.
Qed.

Ltac frame_simpl :=
  cbn beta iota zeta delta [for_loop Scene.elt nth insert list_insert replicate].

Ltac frame_run :=
  frame_simpl;
  lazymatch goal with
  | |- traces _ _ (_ ≫= _) _ _ => eapply traces_bind; [frame_run | frame_run]
  | |- _ =>
      first
        [ apply traces_ret
        | apply SetTransformations_traces
        | apply SetShaderColor_traces
        | apply SetShaderTexture_traces
        | apply SetTextureUVScale_traces
        | apply SetShaderMaterial_traces
        | apply traces_meshes
        | apply uninitialised_floats_traces ]
  end.

Ltac frame_block :=
  eapply traces_eq; [frame_run | destruct (materials_defined s); reflexivity].

Lemma draw_desk_traces :
  traces s g Scene.draw_desk tt (Golden.full (materials_defined s) PlaneMesh).
Proof. unfold Scene.draw_desk. frame_block. Qed.

Lemma draw_pencil_cylinders_traces :
  traces s g Scene.draw_pencil_cylinders tt (Golden.times 5 (Golden.plain CylinderMesh)).
Proof. unfold Scene.draw_pencil_cylinders. frame_block. Qed.

Lemma draw_pencil_taper_traces :
  traces s g Scene.draw_pencil_taper tt (Golden.plain TaperedCylinderMesh).
Proof. unfold Scene.draw_pencil_taper. frame_block. Qed.

Lemma draw_clip_boxes_traces :
  traces s g Scene.draw_clip_boxes tt (Golden.times 2 (Golden.plain BoxMesh)).
Proof. unfold Scene.draw_clip_boxes. frame_block. Qed.

Lemma draw_clip_sphere_traces :
  traces s g Scene.draw_clip_sphere tt (Golden.plain SphereMesh).
Proof. unfold Scene.draw_clip_sphere. frame_block. Qed.

Lemma draw_pencil_point_traces :
  traces s g Scene.draw_pencil_point tt (Golden.plain ConeMesh).
Proof. unfold Scene.draw_pencil_point. frame_block. Qed.

Lemma draw_notebook_box_traces :
  traces s g Scene.draw_notebook_box tt (Golden.textured BoxMesh).
Proof. unfold Scene.draw_notebook_box. frame_block. Qed.

Lemma draw_notebook_page_traces :
  traces s g Scene.draw_notebook_page tt (Golden.full (materials_defined s) PlaneMesh).
Proof. unfold Scene.draw_notebook_page. frame_block. Qed.

Lemma draw_rubiks_traces :
  traces s g Scene.draw_rubiks tt
    (Golden.times 4 (Golden.full (materials_defined s) BoxMesh)).
Proof. unfold Scene.draw_rubiks. frame_block. Qed.

Lemma draw_notebook_rings_traces :
  traces s g Scene.draw_notebook_rings tt (Golden.times 17 (Golden.plain TorusMesh)).
Proof. unfold Scene.draw_notebook_rings. frame_block. Qed.

Lemma RenderScene_traces :
  traces s g Scene.RenderScene tt (Golden.frame (materials_defined s)).
Proof.
  unfold Scene.RenderScene. eapply traces_eq.
  - eapply traces_bind; [apply draw_desk_traces |].
    eapply traces_bind; [apply SetShaderMaterial_traces |].
    eapply traces_bind; [apply draw_pencil_cylinders_traces |].
    eapply traces_bind; [apply draw_pencil_taper_traces |].
    eapply traces_bind; [apply draw_clip_boxes_traces |].
    eapply traces_bind; [apply draw_clip_sphere_traces |].
    eapply traces_bind; [apply draw_pencil_point_traces |].
    eapply traces_bind; [apply draw_notebook_box_traces |].
    eapply traces_bind; [apply draw_notebook_page_traces |].
    eapply traces_bind; [apply SetShaderMaterial_traces |].
    eapply traces_bind; [apply draw_notebook_rings_traces |].
    apply draw_rubiks_traces.
  - destruct (materials_defined s); reflexivity.
Qed.

End FrameFacts.

(** The frame of a ready scene manager. *)
Lemma RenderScene_labels w :
  ready (self w) ->
  exists l,
    Scene.RenderScene w = Ret tt (emit w l) /\
    labels l = Golden.frame (materials_defined (self w)).
Proof.
  intros Hready.
  destruct (RenderScene_traces (self w) (garbage w) Hready) as (l & Hl & Hlabels).
  exists l. split; [by apply Hl | done].
Qed.

(** ** Statements about the draw script *)

(** [C8, as stated, fails] In the frame drawn after [PrepareScene],
    the assignments issued for the second draw call (the first pencil
    cylinder) start with the five [material.*] uniforms of
    "default_material" and only then set the transform and the colour: the
    order transform, colour/texture, material does not hold for that draw. *)
Lemma RenderScene_material_before_transform :
  exists l,
    Scene.RenderScene Examples.prepared = Ret tt (emit Examples.prepared l) /\
    segments (labels l) !! 1%nat =
      Some ([Material; Material; Material; Material; Material;
             Transform; ColorTexture; ColorTexture], CylinderMesh) /\
    per_draw_order (labels l) = false.
Proof.
  destruct prepared_ready as (Hready & _ & Hdef & _).
  destruct (RenderScene_labels _ Hready) as (l & Hrun & Hlabels).
  exists l. split; [exact Hrun |]. rewrite Hlabels, Hdef. split; reflexivity.
Qed.

(** [C8, amended] On a scene manager with its shader manager and meshes and
    a sound texture table, [RenderScene] returns and logs one fixed sequence
    of uniform names and draw calls, which depends on the object only through
    whether a material is defined. It has 34 draw calls: the desk plane, 5
    cylinders, the tapered cylinder, 2 boxes, the sphere, the cone, the
    notebook box, the page plane, 17 tori, 4 boxes. Each draw call is directly
    preceded by its own block, in the order transform, colour/texture,
    material; the "default_material" uniforms are set outside the blocks,
    after each of the two plane draws. *)
Theorem RenderScene_frame w :
  ready (self w) ->
  exists l,
    Scene.RenderScene w = Ret tt (emit w l) /\
    labels l = Golden.frame (materials_defined (self w)) /\
    draws (labels l) =
      [PlaneMesh] ++ replicate 5 CylinderMesh ++ [TaperedCylinderMesh] ++
      replicate 2 BoxMesh ++ [SphereMesh; ConeMesh; BoxMesh; PlaneMesh] ++
      replicate 17 TorusMesh ++ replicate 4 BoxMesh /\
    length (draws (labels l)) = 34%nat /\
    block_order (labels l) = true.
Proof.
  intros Hready. destruct (RenderScene_labels w Hready) as (l & Hrun & Hlabels).
  exists l. split; [exact Hrun |]. split; [exact Hlabels |]. rewrite Hlabels.
  destruct (materials_defined (self w)); repeat split; reflexivity.
Qed.

(** The frame drawn after [PrepareScene]. *)
Lemma RenderScene_frame_witness :
  exists l,
    Scene.RenderScene Examples.prepared = Ret tt (emit Examples.prepared l) /\
    labels l = Golden.frame true /\
    length (draws (labels l)) = 34%nat /\
    block_order (labels l) = true.
Proof.
  destruct (RenderScene_frame Examples.prepared)
    as (l & Hrun & Hlabels & _ & Hcount & Horder).
  - split; [vm_compute; reflexivity |]. split; [vm_compute; reflexivity |].
    split; [vm_compute; reflexivity |]. vm_compute. split; discriminate.
  - exists l. split; [exact Hrun |]. split; [| split; assumption].
    rewrite Hlabels. reflexivity.
Defined.

(** ** Further facts about the rotation *)

Section MoreRotationFacts.
Import Rotation.
Open Scope R_scope.






End MoreRotationFacts.

(** ** Further facts about the texture table *)

Section MoreTextureFacts.

(** The run of [CreateGLTexture] in full: the outcome, the object and the
    log, in each of its four cases. *)
Lemma CreateGLTexture_run filename tag w :
  CreateGLTexture filename tag w =
  match disk w filename with
  | None =>
      Ret false
        (emit w [ stbi_set_flip_vertically_on_load true; stbi_load filename;
                  cout (CouldNotLoadImage filename) ])
  | Some img =>
      let name := gl_name w (gl_generated w) in
      if (colorChannels img =? 3) || (colorChannels img =? 4) then
        match texture_at (self w) (m_loadedTextures (self w)) with
        | Some _ =>
            Ret true
              (mkWorld (registered (self w) tag name)
                 (calls w ++ load_prefix filename img name ++ load_upload img)
                 (disk w) (gl_name w) (S (gl_generated w)) (garbage w))
        | None =>
            Crash (OutOfBounds (m_loadedTextures (self w)))
              (mkWorld (self w)
                 (calls w ++ load_prefix filename img name ++ load_upload img)
                 (disk w) (gl_name w) (S (gl_generated w)) (garbage w))
        end
      else
        Ret false
          (mkWorld (self w)
             (calls w ++ load_prefix filename img name
                ++ [cout (NotImplementedChannels (colorChannels img))])
             (disk w) (gl_name w) (S (gl_generated w)) (garbage w))
  end.
Proof.
  destruct w as [s cs files names generated g].
  cbv beta iota zeta delta
    [CreateGLTexture mbind M_bind mret M_ret call do_stbi_load glGenTextures1 this
     set_texture set_loadedTextures store fault emit with_self registered
     load_prefix load_upload
     self calls disk gl_name gl_generated garbage
     m_pShaderManager m_basicMeshes m_loadedTextures m_textureIDs m_objectMaterials].
  destruct (files filename) as [img |].
  - destruct (colorChannels img =? 3) eqn:E3; cbn [orb].
    + destruct (texture_at s _); f_equal; f_equal;
        repeat rewrite <- app_assoc; reflexivity.
    + destruct (colorChannels img =? 4) eqn:E4.
      * destruct (texture_at s _); f_equal; f_equal;
          repeat rewrite <- app_assoc; reflexivity.
      * f_equal. f_equal. repeat rewrite <- app_assoc. reflexivity.
  - f_equal. f_equal. repeat rewrite <- app_assoc. reflexivity.
Qed.

Lemma texture_at_room s :
  table_ok s -> m_loadedTextures s < 16 -> is_Some (texture_at s (m_loadedTextures s)).
Proof. intros [Hlen Hn] Hroom. apply texture_at_is_Some; [done | lia]. Qed.

Lemma table_ok_registered s tag id :
  table_ok s -> m_loadedTextures s < 16 -> table_ok (registered s tag id).
Proof.
  intros [Hlen Hn] Hroom. split; cbn; [by rewrite length_insert | lia].
Qed.

Lemma entries_registered s tag id :
  table_ok s -> m_loadedTextures s < 16 ->
  entries (registered s tag id) = entries s ++ [TEXTURE_INFO.mk tag id].
Proof. apply entries_after_store. Qed.

(** While a slot is free, [CreateGLTexture] returns, and returns whether the
    file is loadable. *)
Lemma CreateGLTexture_with_room filename tag w :
  table_ok (self w) -> m_loadedTextures (self w) < 16 ->
  exists w',
    CreateGLTexture filename tag w = Ret (loadable w filename) w' /\
    self w' = (if loadable w filename
               then registered (self w) tag (gl_name w (gl_generated w))
               else self w) /\
    disk w' = disk w /\ garbage w' = garbage w.
Proof.
  intros Hok Hroom. rewrite CreateGLTexture_run. unfold loadable.
  destruct (disk w filename) as [img |]; [| by eexists].
  cbv zeta. destruct ((colorChannels img =? 3) || (colorChannels img =? 4)).
  - destruct (texture_at_room _ Hok Hroom) as [e ->]. by eexists.
  - by eexists.
Qed.



(** [X6] When the file decodes to an image whose channel count is neither 3
    nor 4, [CreateGLTexture] has already generated and bound a texture name
    when it gives up: the log gains exactly the calls up to the channel test
    and the "not implemented" line, so the name is never registered nor
    unbound and [stbi_image_free] is not called; the object is untouched. *)
Theorem CreateGLTexture_unsupported_channels filename tag w img :
  disk w filename = Some img ->
  colorChannels img <> 3 -> colorChannels img <> 4 ->
  exists w',
    CreateGLTexture filename tag w = Ret false w' /\
    self w' = self w /\
    gl_generated w' = S (gl_generated w) /\
    calls w' =
      calls w ++ load_prefix filename img (gl_name w (gl_generated w))
        ++ [cout (NotImplementedChannels (colorChannels img))] /\
    ~ stbi_image_free ∈ load_prefix filename img (gl_name w (gl_generated w))
        ++ [cout (NotImplementedChannels (colorChannels img))].
Proof.
  intros Hdisk H3 H4. rewrite CreateGLTexture_run, Hdisk. cbv zeta.
  replace ((colorChannels img =? 3) || (colorChannels img =? 4)) with false by lia.
  eexists. split; [reflexivity |]. repeat split.
  intros Hin. unfold load_prefix in Hin. cbn in Hin.
  repeat (apply elem_of_cons in Hin as [Hin | Hin]; [discriminate |]).
  by apply elem_of_nil in Hin.
Qed.

Lemma CreateGLTexture_unsupported_channels_witness :
  exists w',
    CreateGLTexture "texture.jpg" "texture" (Examples.world_of_grey_files Examples.fresh)
      = Ret false w' /\
    self w' = Examples.fresh /\ gl_generated w' = 1%nat.
Proof.
  destruct (CreateGLTexture_unsupported_channels "texture.jpg" "texture"
              (Examples.world_of_grey_files Examples.fresh) Examples.grey)
    as (w' & Hrun & Hself & Hgen & _).
  - reflexivity.
  - discriminate.
  - discriminate.
  - exists w'. split; [exact Hrun |]. split; [exact Hself | exact Hgen].
Defined.

(** [X7] On a sound table [FindTextureSlot] never faults: it returns the
    index of the first loaded entry with the tag, -1 when no loaded entry has
    it, and in every case a value from -1 up to, not including,
    [m_loadedTextures]. *)
Theorem FindTextureSlot_first_match s t :
  table_ok s ->
  (forall i e, first_match TEXTURE_INFO.tag t (entries s) i e ->
     FindTextureSlot t s = Ok (Z.of_nat i)) /\
  (absent TEXTURE_INFO.tag t (entries s) -> FindTextureSlot t s = Ok (-1)) /\
  (exists r, FindTextureSlot t s = Ok r /\ -1 <= r < m_loadedTextures s).
Proof.
  intros Hok. rewrite FindTextureSlot_scan by done. split; [| split].
  - intros i e Hm.
    by rewrite (first_match_list_find TEXTURE_INFO.tag t (has_tag t) _ i e).
  - intros Habs. by rewrite (absent_list_find TEXTURE_INFO.tag t (has_tag t)).
  - destruct (list_find (has_tag t) (entries s)) as [[i e] |] eqn:Hfind.
    + eexists. split; [reflexivity |].
      apply list_find_Some in Hfind as (Hi & _).
      apply lookup_lt_Some in Hi. rewrite length_entries in Hi by done. lia.
    + eexists. split; [reflexivity |]. destruct Hok as [_ Hn]. lia.
Qed.

Lemma FindTextureSlot_first_match_witness :
  FindTextureSlot "page" Examples.duplicated = Ok 1 /\
  FindTextureSlot "rubiks" Examples.duplicated = Ok (-1).
Proof.
  assert (table_ok Examples.duplicated) as Hok by (split; [reflexivity | cbn; lia]).
  split.
  - apply (proj1 (FindTextureSlot_first_match Examples.duplicated "page" Hok)
             1%nat (TEXTURE_INFO.mk "page" 8)).
    split; [reflexivity |]. split; [reflexivity |].
    intros [| j] e' Hj; [| lia]. intros [= <-]. discriminate.
  - apply (proj1 (proj2 (FindTextureSlot_first_match Examples.duplicated "rubiks" Hok))).
    intros e He. cbn in He.
    repeat (apply elem_of_cons in He as [-> | He]; [discriminate |]).
    by apply elem_of_nil in He.
Defined.

(** The loaded entries after a call of [CreateGLTexture] that returns. *)
Lemma CreateGLTexture_entries filename tag w b w' :
  table_ok (self w) ->
  CreateGLTexture filename tag w = Ret b w' ->
  table_ok (self w') /\
  entries (self w') =
    entries (self w)
    ++ (if b then [TEXTURE_INFO.mk tag (gl_name w (gl_generated w))] else []).
Proof.
  intros Hok. rewrite CreateGLTexture_run.
  destruct (disk w filename) as [img |].
  - cbv zeta. destruct ((colorChannels img =? 3) || (colorChannels img =? 4)).
    + destruct (texture_at (self w) (m_loadedTextures (self w))) eqn:Hat; [| done].
      intros [= <- <-]. cbn [self].
      assert (m_loadedTextures (self w) < 16) as Hroom.
      { destruct (Z_lt_dec (m_loadedTextures (self w)) 16); [done |].
        rewrite texture_at_None in Hat by lia. done. }
      split; [by apply table_ok_registered | by apply entries_registered].
    + intros [= <- <-]. cbn [self]. by rewrite app_nil_r.
  - intros [= <- <-]. unfold emit. cbn [self]. by rewrite app_nil_r.
Qed.

(** [X8] Round trip of registration and lookup: when [CreateGLTexture]
    returns [true] for a tag that no loaded entry carried, [FindTextureSlot]
    of that tag is the former [m_loadedTextures] and [FindTextureID] of it is
    the name that [glGenTextures] handed out in the call, read as an [int]:
    the name itself when it is below 2^31. *)
Theorem CreateGLTexture_then_lookup filename tag w w' :
  table_ok (self w) ->
  absent TEXTURE_INFO.tag tag (entries (self w)) ->
  CreateGLTexture filename tag w = Ret true w' ->
  FindTextureSlot tag (self w') = Ok (m_loadedTextures (self w)) /\
  FindTextureID tag (self w') = Ok (to_int32 (gl_name w (gl_generated w))) /\
  (0 <= gl_name w (gl_generated w) < 2147483648 ->
   FindTextureID tag (self w') = Ok (gl_name w (gl_generated w))).
Proof.
  intros Hok Habs Hrun.
  destruct (CreateGLTexture_entries _ _ _ _ _ Hok Hrun) as (Hok' & Hentries).
  assert (first_match TEXTURE_INFO.tag tag (entries (self w'))
            (Z.to_nat (m_loadedTextures (self w)))
            (TEXTURE_INFO.mk tag (gl_name w (gl_generated w)))) as Hm.
  { rewrite Hentries. split; [| split; [done |]].
    - rewrite lookup_app_r by (rewrite length_entries by done; lia).
      rewrite length_entries by done. by rewrite Nat.sub_diag.
    - intros j e' Hj He'.
      rewrite lookup_app_l in He' by (rewrite length_entries by done; lia).
      apply (Habs e'). by eapply list_elem_of_lookup_2. }
  rewrite FindTextureSlot_scan, FindTextureID_scan by done.
  rewrite (first_match_list_find TEXTURE_INFO.tag tag (has_tag tag) _ _ _
             (fun x => conj (fun H => H) (fun H => H)) Hm).
  cbn [TEXTURE_INFO.ID].
  split; [f_equal; destruct Hok as [_ Hn]; lia |].
  split; [done |]. intros Hname. by rewrite to_int32_small by lia.
Qed.

Lemma CreateGLTexture_then_lookup_witness :
  exists w',
    CreateGLTexture "texture.jpg" "texture" (Examples.world Examples.fresh) = Ret true w' /\
    FindTextureSlot "texture" (self w') = Ok 0 /\
    FindTextureID "texture" (self w') = Ok 1.
Proof.
  eexists. split; [vm_compute; reflexivity |].
  eassert (_ /\ _ /\ _) as (Hslot & _ & Hid).
  { apply (CreateGLTexture_then_lookup "texture.jpg" "texture"
             (Examples.world Examples.fresh)).
    - split; [reflexivity | cbn; lia].
    - intros e He. cbn in He. by apply elem_of_nil in He.
    - vm_compute. reflexivity. }
  split; [exact Hslot |]. apply Hid. cbn. lia.
Defined.

(** [X9] A call of [CreateGLTexture] that returns changes no earlier lookup:
    a tag that had a first match keeps its slot and its ID, which
    [FindTextureID] returns read as an [int] (so registering a tag a second
    time is never seen by the lookups), and a tag that was absent and is not
    the one registered stays absent. *)
Theorem CreateGLTexture_keeps_lookups filename tag w b w' t :
  table_ok (self w) ->
  CreateGLTexture filename tag w = Ret b w' ->
  (forall i e, first_match TEXTURE_INFO.tag t (entries (self w)) i e ->
     FindTextureSlot t (self w') = Ok (Z.of_nat i) /\
     FindTextureID t (self w') = Ok (to_int32 (TEXTURE_INFO.ID e))) /\
  (absent TEXTURE_INFO.tag t (entries (self w)) -> t <> tag ->
     FindTextureSlot t (self w') = Ok (-1) /\
     FindTextureID t (self w') = Ok (-1)).
Proof.
  intros Hok Hrun.
  destruct (CreateGLTexture_entries _ _ _ _ _ Hok Hrun) as (Hok' & Hentries).
  rewrite FindTextureSlot_scan, FindTextureID_scan by done. rewrite Hentries.
  split.
  - intros i e (Hi & Ht & Hfirst).
    assert (first_match TEXTURE_INFO.tag t
              (entries (self w)
               ++ (if b then [TEXTURE_INFO.mk tag (gl_name w (gl_generated w))] else []))
              i e) as Hm.
    { split; [by apply lookup_app_l_Some |]. split; [done |].
      intros j e' Hj He'. apply (Hfirst j e' Hj).
      rewrite lookup_app_l in He'; [done |].
      apply lookup_lt_Some in Hi. lia. }
    by rewrite (first_match_list_find TEXTURE_INFO.tag t (has_tag t) _ _ _
                  (fun x => conj (fun H => H) (fun H => H)) Hm).
  - intros Habs Hne.
    rewrite (absent_list_find TEXTURE_INFO.tag t (has_tag t)); [done | done |].
    intros e He. apply elem_of_app in He as [He | He]; [by apply Habs |].
    destruct b; [| by apply elem_of_nil in He].
    apply list_elem_of_singleton in He as ->. cbn. congruence.
Qed.

Lemma CreateGLTexture_keeps_lookups_witness :
  exists w',
    CreateGLTexture "page2.jpg" "page" (Examples.world Examples.duplicated) = Ret true w' /\
    FindTextureSlot "page" (self w') = Ok 1 /\
    FindTextureID "page" (self w') = Ok 8.
Proof.
  assert (table_ok (self (Examples.world Examples.duplicated))) as Hok
    by (split; [reflexivity | cbn; lia]).
  eexists. split; [vm_compute; reflexivity |].
  eapply (proj1 (CreateGLTexture_keeps_lookups "page2.jpg" "page"
                   (Examples.world Examples.duplicated) true _ "page" Hok _)
            1%nat (TEXTURE_INFO.mk "page" 8)).
  split; [reflexivity |]. split; [reflexivity |].
  intros [| j] e' Hj; [| lia]. intros [= <-]. discriminate.
  Unshelve. vm_compute. reflexivity.
Defined.

Lemma BindGLTextures_loop count : forall lo w,
  length (m_textureIDs (self w)) = 16%nat -> (lo + count <= 16)%nat ->
  for_loop lo count
    (fun i _ =>
       call (glActiveTexture (GL_TEXTURE0_plus (Z.of_nat i)));;
       s ← this;
       match texture_at s (Z.of_nat i) with
       | None => fault (OutOfBounds (Z.of_nat i))
       | Some e => call (glBindTexture GL_TEXTURE_2D (TEXTURE_INFO.ID e))
       end) tt w
  = Ret tt (emit w (bind_log lo (take count (drop lo (m_textureIDs (self w)))))).
Proof.
  induction count as [| count IH]; intros lo w Hlen Hlo.
  - cbn. by rewrite emit_nil.
  - destruct (lookup_lt_is_Some_2 (m_textureIDs (self w)) lo) as [e He]; [lia |].
    assert (texture_at (self w) (Z.of_nat lo) = Some e) as Hat.
    { unfold texture_at. rewrite Nat2Z.id, He.
      destruct (0 <=? Z.of_nat lo) eqn:E1; [| lia].
      destruct (Z.of_nat lo <? 16) eqn:E2; [done | lia]. }
    cbn [for_loop]. rewrite !bind_run. cbn [call]. rewrite bind_run.
    unfold this at 1. cbn [self emit]. rewrite Hat. cbn [call].
    rewrite IH by (cbn [self emit]; (done || lia)).
    rewrite !emit_emit. cbn [self emit].
    rewrite (drop_S _ _ _ He). reflexivity.
Qed.

Lemma BindGLTextures_run w :
  table_ok (self w) ->
  BindGLTextures w = Ret tt (emit w (bind_log 0 (entries (self w)))).
Proof.
  intros [Hlen Hn]. unfold BindGLTextures. rewrite bind_run. cbn [this].
  rewrite BindGLTextures_loop by (done || lia). by rewrite drop_0.
Qed.

(** [X10] On a sound table [BindGLTextures] returns, leaves the object as
    it is, and logs, for the loaded entries in insertion order, the selection
    of texture unit 0, 1, 2, ... each followed by the binding of that entry's
    ID; it touches no entry beyond [m_loadedTextures]. *)
Theorem BindGLTextures_log w :
  table_ok (self w) ->
  BindGLTextures w = Ret tt (emit w (bind_log 0 (entries (self w)))).
Proof. apply BindGLTextures_run. Qed.

Lemma BindGLTextures_log_witness :
  BindGLTextures (Examples.world Examples.duplicated) =
  Ret tt (emit (Examples.world Examples.duplicated)
            [ glActiveTexture (GL_TEXTURE0_plus 0); glBindTexture GL_TEXTURE_2D 7;
              glActiveTexture (GL_TEXTURE0_plus 1); glBindTexture GL_TEXTURE_2D 8;
              glActiveTexture (GL_TEXTURE0_plus 2); glBindTexture GL_TEXTURE_2D 9 ]).
Proof.
  apply (BindGLTextures_log (Examples.world Examples.duplicated)).
  split; [reflexivity | cbn; lia].
Defined.

Lemma bind_log_lookup l : forall lo k e,
  l !! k = Some e ->
  bind_log lo l !! (2 * k)%nat
    = Some (glActiveTexture (GL_TEXTURE0_plus (Z.of_nat (lo + k)))) /\
  bind_log lo l !! (2 * k + 1)%nat
    = Some (glBindTexture GL_TEXTURE_2D (TEXTURE_INFO.ID e)).
Proof.
  induction l as [| e0 l IH]; intros lo k e Hk; [done |].
  destruct k as [| k].
  - injection Hk as ->. cbn. by rewrite Nat.add_0_r.
  - cbn in Hk. destruct (IH (S lo) k e Hk) as [H1 H2].
    replace (2 * S k)%nat with (S (S (2 * k))) by lia.
    replace (S (S (2 * k)) + 1)%nat with (S (S (2 * k + 1))) by lia.
    replace (S lo + k)%nat with (lo + S k)%nat in H1 by lia.
    split; [exact H1 | exact H2].
Qed.

(** [X11] The sampler value and the texture unit agree: for a tag whose
    first match is entry [i], [SetShaderTexture] passes [i] as the
    [objectTexture] sampler, and in the log of [BindGLTextures] call [2 i]
    selects texture unit [i] and call [2 i + 1] binds the ID of that entry
    to it; [FindTextureID] returns for the tag that same ID, read as an
    [int]. *)
Theorem sampler_is_bound_unit w t i e :
  m_pShaderManager (self w) = Ptr ->
  table_ok (self w) ->
  first_match TEXTURE_INFO.tag t (entries (self w)) i e ->
  SetShaderTexture t w =
    Ret tt (emit w [ setIntValue "bUseTexture" 1;
                     setSampler2DValue "objectTexture" (Z.of_nat i) ]) /\
  FindTextureID t (self w) = Ok (to_int32 (TEXTURE_INFO.ID e)) /\
  exists l,
    BindGLTextures w = Ret tt (emit w l) /\
    l !! (2 * i)%nat = Some (glActiveTexture (GL_TEXTURE0_plus (Z.of_nat i))) /\
    l !! (2 * i + 1)%nat = Some (glBindTexture GL_TEXTURE_2D (TEXTURE_INFO.ID e)).
Proof.
  intros Hptr Hok Hm.
  pose proof (FindTextureSlot_scan (self w) t Hok) as Hslot.
  pose proof (FindTextureID_scan (self w) t Hok) as Hid.
  rewrite (first_match_list_find TEXTURE_INFO.tag t (has_tag t) _ _ _
             (fun x => conj (fun H => H) (fun H => H)) Hm) in Hslot, Hid.
  split; [| split; [exact Hid |]].
  - destruct w as [s cs files names generated g].
    cbv beta iota zeta delta
      [SetShaderTexture mbind M_bind mret M_ret call this lift emit
       self calls disk gl_name gl_generated garbage] in *.
    rewrite Hptr, Hslot. cbv beta iota. by rewrite <- app_assoc.
  - exists (bind_log 0 (entries (self w))). split; [by apply BindGLTextures_run |].
    destruct Hm as (Hi & _). exact (bind_log_lookup _ 0 i e Hi).
Qed.

Lemma sampler_is_bound_unit_witness :
  SetShaderTexture "page" (Examples.world Examples.duplicated) =
    Ret tt (emit (Examples.world Examples.duplicated)
              [ setIntValue "bUseTexture" 1; setSampler2DValue "objectTexture" 1 ]) /\
  FindTextureID "page" Examples.duplicated = Ok 8.
Proof.
  destruct (sampler_is_bound_unit (Examples.world Examples.duplicated) "page"
              1%nat (TEXTURE_INFO.mk "page" 8)) as (Hset & Hid & _).
  - reflexivity.
  - split; [reflexivity | cbn; lia].
  - split; [reflexivity |]. split; [reflexivity |].
    intros [| j] e' Hj; [| lia]. intros [= <-]. discriminate.
  - split; [exact Hset | exact Hid].
Defined.

Lemma DestroyGLTextures_round_state w i e :
  m_textureIDs (self w) !! i = Some e -> (i < 16)%nat ->
  (s ← this;
   match texture_at s (Z.of_nat i) with
   | None => fault (OutOfBounds (Z.of_nat i))
   | Some e =>
       name ← glGenTextures1;
       set_texture (Z.of_nat i) name (TEXTURE_INFO.tag e)
   end) w
  = Ret tt
      (mkWorld
         (mkSceneManager (m_pShaderManager (self w)) (m_basicMeshes (self w))
            (m_loadedTextures (self w))
            (<[i := TEXTURE_INFO.mk (TEXTURE_INFO.tag e) (gl_name w (gl_generated w))]>
               (m_textureIDs (self w)))
            (m_objectMaterials (self w)))
         (calls w ++ [glGenTextures 1 (gl_name w (gl_generated w))])
         (disk w) (gl_name w) (S (gl_generated w)) (garbage w)).
Proof.
  intros He Hi.
  assert (texture_at (self w) (Z.of_nat i) = Some e) as Hat.
  { unfold texture_at. rewrite Nat2Z.id, He.
    destruct (0 <=? Z.of_nat i) eqn:E1; [| lia].
    destruct (Z.of_nat i <? 16) eqn:E2; [done | lia]. }
  destruct w as [s cs files names generated g].
  cbv beta iota zeta delta
    [mbind M_bind mret M_ret glGenTextures1 this set_texture store fault with_self
     self calls disk gl_name gl_generated garbage
     m_pShaderManager m_basicMeshes m_loadedTextures m_textureIDs m_objectMaterials]
    in *.
  rewrite Hat. cbv beta iota. rewrite Hat. by rewrite Nat2Z.id.
Qed.

Lemma DestroyGLTextures_loop_state count : forall lo w,
  length (m_textureIDs (self w)) = 16%nat -> (lo + count <= 16)%nat ->
  exists w',
    for_loop lo count
      (fun i _ =>
         s ← this;
         match texture_at s (Z.of_nat i) with
         | None => fault (OutOfBounds (Z.of_nat i))
         | Some e =>
             name ← glGenTextures1;
             set_texture (Z.of_nat i) name (TEXTURE_INFO.tag e)
         end) tt w = Ret tt w' /\
    m_loadedTextures (self w') = m_loadedTextures (self w) /\
    m_pShaderManager (self w') = m_pShaderManager (self w) /\
    m_basicMeshes (self w') = m_basicMeshes (self w) /\
    m_objectMaterials (self w') = m_objectMaterials (self w) /\
    length (m_textureIDs (self w')) = 16%nat /\
    forall j,
      m_textureIDs (self w') !! j =
      if decide (lo <= j < lo + count)%nat
      then (fun e => TEXTURE_INFO.mk (TEXTURE_INFO.tag e)
                       (gl_name w (gl_generated w + (j - lo))))
             <$> m_textureIDs (self w) !! j
      else m_textureIDs (self w) !! j.
Proof.
  induction count as [| count IH]; intros lo w Hlen Hlo.
  - exists w. cbn [for_loop]. repeat split; try done.
    intros j. rewrite decide_False by lia. done.
  - destruct (lookup_lt_is_Some_2 (m_textureIDs (self w)) lo) as [e He]; [lia |].
    pose proof (DestroyGLTextures_round_state w lo e He) as Hround.
    set (w1 := mkWorld _ _ _ _ _ _) in Hround.
    destruct (IH (S lo) w1) as (w' & Hrun & Hn & Hp & Hb & Hm & Hlen' & Htable).
    { subst w1. cbn. by rewrite length_insert. }
    { lia. }
    exists w'. cbn [for_loop]. rewrite bind_run, Hround by lia.
    split; [exact Hrun |]. subst w1. cbn in Hn, Hp, Hb, Hm, Htable.
    repeat split; try done.
    intros j. rewrite Htable. destruct (decide (j = lo)) as [-> | Hne].
    + rewrite list_lookup_insert_eq by lia. rewrite He.
      repeat case_decide; try lia. cbn. by rewrite Nat.sub_diag, Nat.add_0_r.
    + rewrite list_lookup_insert_ne by lia.
      repeat case_decide; try lia; [| done].
      destruct (m_textureIDs (self w) !! j); cbn; [| done].
      do 3 f_equal. lia.
Qed.

(** [X12] On a sound table [DestroyGLTextures] returns and keeps
    [m_loadedTextures], every tag and everything else of the object, but
    replaces the ID of loaded entry [i] by the [i]-th texture name it has just
    generated: the names that [CreateGLTexture] had stored are gone, and the
    lookups by tag keep working on the new ones. *)
Theorem DestroyGLTextures_replaces_IDs w :
  table_ok (self w) ->
  exists w',
    DestroyGLTextures w = Ret tt w' /\
    m_loadedTextures (self w') = m_loadedTextures (self w) /\
    m_pShaderManager (self w') = m_pShaderManager (self w) /\
    m_basicMeshes (self w') = m_basicMeshes (self w) /\
    m_objectMaterials (self w') = m_objectMaterials (self w) /\
    table_ok (self w') /\
    forall i e,
      entries (self w) !! i = Some e ->
      entries (self w') !! i =
        Some (TEXTURE_INFO.mk (TEXTURE_INFO.tag e) (gl_name w (gl_generated w + i))).
Proof.
  intros [Hlen Hn].
  destruct (DestroyGLTextures_loop_state (Z.to_nat (m_loadedTextures (self w))) 0 w Hlen)
    as (w' & Hrun & Hcount & Hp & Hb & Hm & Hlen' & Htable); [lia |].
  exists w'. unfold DestroyGLTextures. rewrite bind_run. cbn [this].
  split; [exact Hrun |]. repeat split; try done; try lia.
  intros i e Hi. unfold entries in *. rewrite Hcount.
  apply lookup_take_Some in Hi as [Hi Hlt].
  rewrite lookup_take_lt by done. rewrite Htable.
  rewrite decide_True by lia. rewrite Hi. cbn. by rewrite Nat.sub_0_r.
Qed.

Lemma DestroyGLTextures_replaces_IDs_witness :
  exists w',
    DestroyGLTextures (Examples.world Examples.duplicated) = Ret tt w' /\
    m_loadedTextures (self w') = 3 /\
    entries (self w') !! 1%nat = Some (TEXTURE_INFO.mk "page" 2).
Proof.
  destruct (DestroyGLTextures_replaces_IDs (Examples.world Examples.duplicated))
    as (w' & Hrun & Hcount & _ & _ & _ & _ & Hentries).
  - split; [reflexivity | cbn; lia].
  - exists w'. split; [exact Hrun |]. split; [exact Hcount |].
    exact (Hentries 1%nat (TEXTURE_INFO.mk "page" 8) eq_refl).
Defined.

End MoreTextureFacts.

(** ** Further facts about the shader setters and the materials *)

Section MoreShaderFacts.

Lemma shader_run c w :
  shader c w =
  match m_pShaderManager (self w) with
  | NULL => Crash NullDereference w
  | Ptr => Ret tt (emit w [c])
  end.
Proof. unfold shader. rewrite bind_run. cbn [this]. by destruct (m_pShaderManager (self w)). Qed.

Lemma meshes_run c w :
  meshes c w =
  match m_basicMeshes (self w) with
  | NULL => Crash NullDereference w
  | Ptr => Ret tt (emit w [c])
  end.
Proof. unfold meshes. rewrite bind_run. cbn [this]. by destruct (m_basicMeshes (self w)). Qed.

(** The five uploads of [SetShaderMaterial], run with a shader manager. *)
Lemma upload_material_run material w :
  m_pShaderManager (self w) = Ptr ->
  (shader (setVec3Value "material.ambientColor" (OBJECT_MATERIAL.ambientColor material));;
   shader (setFloatValue "material.ambientStrength" (OBJECT_MATERIAL.ambientStrength material));;
   shader (setVec3Value "material.diffuseColor" (OBJECT_MATERIAL.diffuseColor material));;
   shader (setVec3Value "material.specularColor" (OBJECT_MATERIAL.specularColor material));;
   shader (setFloatValue "material.shininess" (OBJECT_MATERIAL.shininess material))) w
  = Ret tt (emit w (material_log material)).
Proof.
  intros Hptr.
  rewrite bind_run, shader_run, Hptr.
  rewrite bind_run, shader_run. cbn [self emit]. rewrite Hptr.
  rewrite bind_run, shader_run. cbn [self emit]. rewrite Hptr.
  rewrite bind_run, shader_run. cbn [self emit]. rewrite Hptr.
  rewrite shader_run. cbn [self emit]. rewrite Hptr.
  rewrite !emit_emit. reflexivity.
Qed.

Lemma materials_defined_nonempty s :
  m_objectMaterials s <> [] -> (0 <? length (m_objectMaterials s))%nat = true.
Proof. destruct (m_objectMaterials s); [done | by intros _]. Qed.

(** [X13] With a shader manager, [SetShaderMaterial] on a tag that some
    entry carries uploads the five values of the first such entry, as
    [material.ambientColor], [material.ambientStrength],
    [material.diffuseColor], [material.specularColor] and
    [material.shininess], in this order. *)
Theorem SetShaderMaterial_uploads_first_match w t i e :
  m_pShaderManager (self w) = Ptr ->
  first_match OBJECT_MATERIAL.tag t (m_objectMaterials (self w)) i e ->
  SetShaderMaterial t w = Ret tt (emit w (material_log e)).
Proof.
  intros Hptr Hm.
  assert (m_objectMaterials (self w) <> []) as Hne.
  { destruct Hm as (Hi & _). intros E. by rewrite E in Hi. }
  unfold SetShaderMaterial. rewrite (materials_defined_nonempty _ Hne).
  rewrite FindMaterial_scan by done.
  rewrite (first_match_list_find OBJECT_MATERIAL.tag t (has_material_tag t) _ _ _
             (fun x => conj (fun H => H) (fun H => H)) Hm).
  by rewrite upload_material_run.
Qed.

Lemma SetShaderMaterial_uploads_first_match_witness :
  SetShaderMaterial "wire_material" (Examples.world Examples.duplicated) =
  Ret tt (emit (Examples.world Examples.duplicated) (material_log Materials.wireMaterial)).
Proof.
  apply (SetShaderMaterial_uploads_first_match (Examples.world Examples.duplicated)
           "wire_material" 1%nat Materials.wireMaterial).
  - reflexivity.
  - split; [reflexivity |]. split; [reflexivity |].
    intros [| j] e' Hj; [| lia]. intros [= <-]. discriminate.
Defined.

(** [X14] With a shader manager and a non-empty material list,
    [SetShaderMaterial] on a tag that no entry carries still uploads five
    values: those of its local [OBJECT_MATERIAL], which nothing has
    initialised. *)
Theorem SetShaderMaterial_uploads_uninitialised w t :
  m_pShaderManager (self w) = Ptr ->
  m_objectMaterials (self w) <> [] ->
  absent OBJECT_MATERIAL.tag t (m_objectMaterials (self w)) ->
  SetShaderMaterial t w =
  Ret tt (emit w (material_log (uninitialised_material (garbage w)))).
Proof.
  intros Hptr Hne Habs.
  unfold SetShaderMaterial. rewrite (materials_defined_nonempty _ Hne).
  rewrite FindMaterial_scan by done.
  rewrite (absent_list_find OBJECT_MATERIAL.tag t (has_material_tag t)) by done.
  by rewrite upload_material_run.
Qed.

Lemma SetShaderMaterial_uploads_uninitialised_witness :
  SetShaderMaterial "missing" (Examples.world Examples.one_material) =
  Ret tt (emit (Examples.world Examples.one_material)
            (material_log (uninitialised_material (fun _ => 0%R)))).
Proof.
  apply (SetShaderMaterial_uploads_uninitialised (Examples.world Examples.one_material)
           "missing").
  - reflexivity.
  - discriminate.
  - intros e He. apply list_elem_of_singleton in He as ->. discriminate.
Defined.

Lemma SetTransformations_null w scaleXYZ xd yd zd positionXYZ :
  m_pShaderManager (self w) = NULL ->
  SetTransformations scaleXYZ xd yd zd positionXYZ w = Ret tt w.
Proof. intros H. unfold SetTransformations. rewrite bind_run. cbn [this]. by rewrite H. Qed.

Lemma SetShaderColor_null w r g b a :
  m_pShaderManager (self w) = NULL -> SetShaderColor r g b a w = Ret tt w.
Proof. intros H. unfold SetShaderColor. rewrite bind_run. cbn [this]. by rewrite H. Qed.

Lemma SetTextureUVScale_null w u v :
  m_pShaderManager (self w) = NULL -> SetTextureUVScale u v w = Ret tt w.
Proof. intros H. unfold SetTextureUVScale. rewrite bind_run. cbn [this]. by rewrite H. Qed.

Lemma SetShaderMaterial_null w t :
  m_pShaderManager (self w) = NULL -> m_objectMaterials (self w) <> [] ->
  SetShaderMaterial t w = Crash NullDereference w.
Proof.
  intros Hnull Hne. unfold SetShaderMaterial. rewrite (materials_defined_nonempty _ Hne).
  rewrite FindMaterial_scan by done. by rewrite bind_run, shader_run, Hnull.
Qed.

(** [X15] Without a shader manager the four guarded setters return without
    a call and without touching anything, whereas [SetShaderMaterial], which
    is guarded by the size of the material list only, returns without a call
    on an empty list and dereferences the NULL pointer on a non-empty one. *)
Theorem setters_without_shader_manager w :
  m_pShaderManager (self w) = NULL ->
  (forall scaleXYZ xd yd zd positionXYZ,
     SetTransformations scaleXYZ xd yd zd positionXYZ w = Ret tt w) /\
  (forall r g b a, SetShaderColor r g b a w = Ret tt w) /\
  (forall t, SetShaderTexture t w = Ret tt w) /\
  (forall u v, SetTextureUVScale u v w = Ret tt w) /\
  (forall t, m_objectMaterials (self w) = [] -> SetShaderMaterial t w = Ret tt w) /\
  (forall t, m_objectMaterials (self w) <> [] ->
     SetShaderMaterial t w = Crash NullDereference w).
Proof.
  intros Hnull. split; [| split; [| split; [| split; [| split]]]].
  - intros. by apply SetTransformations_null.
  - intros. by apply SetShaderColor_null.
  - intros. by apply SetShaderTexture_without_shader.
  - intros. by apply SetTextureUVScale_null.
  - intros t Hempty. unfold SetShaderMaterial. by rewrite Hempty.
  - intros t Hne. by apply SetShaderMaterial_null.
Qed.

Lemma setters_without_shader_manager_witness :
  SetShaderTexture "shadow" (Examples.world MoreExamples.headless_with_material)
    = Ret tt (Examples.world MoreExamples.headless_with_material) /\
  SetShaderMaterial "default_material" (Examples.world MoreExamples.headless_with_material)
    = Crash NullDereference (Examples.world MoreExamples.headless_with_material).
Proof.
  destruct (setters_without_shader_manager
              (Examples.world MoreExamples.headless_with_material) eq_refl)
    as (_ & _ & Htexture & _ & _ & Hmaterial).
  split; [apply Htexture | apply Hmaterial; discriminate].
Defined.

(** [X16] With a material defined but no shader manager, [RenderScene]
    faults on the NULL pointer in its first [SetShaderMaterial], before any
    uniform is set and before anything is drawn. *)
Theorem RenderScene_without_shader_manager w :
  m_pShaderManager (self w) = NULL ->
  m_objectMaterials (self w) <> [] ->
  Scene.RenderScene w = Crash NullDereference w.
Proof.
  intros Hnull Hne. unfold Scene.RenderScene, Scene.draw_desk. cbv zeta.
  rewrite bind_run, bind_run, SetTransformations_null by done. cbv beta iota.
  rewrite bind_run, SetShaderColor_null by done. cbv beta iota.
  rewrite bind_run, SetShaderTexture_without_shader by done. cbv beta iota.
  rewrite bind_run, SetTextureUVScale_null by done. cbv beta iota.
  rewrite bind_run, SetShaderMaterial_null by done. reflexivity.
Qed.

Lemma RenderScene_without_shader_manager_witness :
  Scene.RenderScene (Examples.world MoreExamples.headless_with_material)
  = Crash NullDereference (Examples.world MoreExamples.headless_with_material).
Proof.
  apply (RenderScene_without_shader_manager
           (Examples.world MoreExamples.headless_with_material)).
  - reflexivity.
  - discriminate.
Defined.

End MoreShaderFacts.

(** ** Further facts about the preparation of the scene *)

Section MorePrepareFacts.

Lemma DefineObjectMaterials_run w :
  DefineObjectMaterials w =
  Ret tt
    (with_self w
       (mkSceneManager (m_pShaderManager (self w)) (m_basicMeshes (self w))
          (m_loadedTextures (self w)) (m_textureIDs (self w))
          (m_objectMaterials (self w) ++ scene_materials))).
Proof.
  destruct w as [s cs files names generated g].
  cbv beta iota zeta delta
    [DefineObjectMaterials push_back mbind M_bind mret M_ret this store with_self
     self calls disk gl_name gl_generated garbage
     m_pShaderManager m_basicMeshes m_loadedTextures m_textureIDs m_objectMaterials].
  unfold scene_materials. repeat rewrite <- app_assoc. reflexivity.
Qed.

Lemma list_find_app_again {A : Type} (P : A -> Prop) `{!forall x, Decision (P x)}
    (l d : list A) :
  list_find P ((l ++ d) ++ d) = list_find P (l ++ d).
Proof.
  destruct (list_find P (l ++ d)) as [[i x] |] eqn:Hfind.
  - apply list_find_app_Some. by left.
  - apply list_find_app_None. split; [done |].
    by apply list_find_app_None in Hfind as [_ ?].
Qed.

(** [X17] Calling [DefineObjectMaterials] a second time makes the material
    list five entries longer but changes the result of no lookup: for every
    tag and output material [FindMaterial] answers as after the first call. *)
Theorem DefineObjectMaterials_twice w t material :
  exists w1 w2,
    DefineObjectMaterials w = Ret tt w1 /\
    DefineObjectMaterials w1 = Ret tt w2 /\
    length (m_objectMaterials (self w2)) = (length (m_objectMaterials (self w1)) + 5)%nat /\
    FindMaterial t material (self w2) = FindMaterial t material (self w1).
Proof.
  do 2 eexists. split; [apply DefineObjectMaterials_run |].
  split; [apply DefineObjectMaterials_run |]. cbn [self with_self m_objectMaterials].
  split; [by rewrite length_app |].
  rewrite !FindMaterial_scan; cbn [m_objectMaterials].
  - by rewrite list_find_app_again.
  - intros E. by apply app_eq_nil in E as [_ ?].
  - intros E. by apply app_eq_nil in E as [_ ?].
Qed.

(** One call of [CreateGLTexture] of [LoadSceneTextures], while a slot is
    free. *)
Lemma load_step filename tag w :
  table_ok (self w) -> m_loadedTextures (self w) < 16 ->
  exists w',
    CreateGLTexture filename tag w = Ret (loadable w filename) w' /\
    table_ok (self w') /\
    m_loadedTextures (self w') =
      m_loadedTextures (self w) + (if loadable w filename then 1 else 0) /\
    map TEXTURE_INFO.tag (entries (self w')) =
      map TEXTURE_INFO.tag (entries (self w))
      ++ (if loadable w filename then [tag] else []) /\
    m_pShaderManager (self w') = m_pShaderManager (self w) /\
    m_basicMeshes (self w') = m_basicMeshes (self w) /\
    m_objectMaterials (self w') = m_objectMaterials (self w) /\
    disk w' = disk w /\ garbage w' = garbage w.
Proof.
  intros Hok Hroom.
  destruct (CreateGLTexture_with_room filename tag w Hok Hroom)
    as (w' & Hrun & Hself & Hdisk & Hgarbage).
  exists w'. split; [exact Hrun |]. rewrite Hself.
  destruct (loadable w filename).
  - split; [by apply table_ok_registered |].
    rewrite entries_registered by done. rewrite map_app.
    unfold registered. cbn [m_loadedTextures m_pShaderManager m_basicMeshes m_objectMaterials].
    repeat split; (done || lia).
  - rewrite app_nil_r. split; [done |]. repeat split; (done || lia).
Qed.

Lemma loadable_disk w w' filename :
  disk w' = disk w -> loadable w' filename = loadable w filename.
Proof. intros H. unfold loadable. by rewrite H. Qed.

Lemma LoadSceneTextures_run w :
  table_ok (self w) -> m_loadedTextures (self w) <= 12 ->
  exists w',
    LoadSceneTextures w = Ret tt w' /\
    table_ok (self w') /\
    m_loadedTextures (self w') = m_loadedTextures (self w) + Z.of_nat (length (loaded_tags w)) /\
    map TEXTURE_INFO.tag (entries (self w')) =
      map TEXTURE_INFO.tag (entries (self w)) ++ loaded_tags w /\
    m_pShaderManager (self w') = m_pShaderManager (self w) /\
    m_basicMeshes (self w') = m_basicMeshes (self w) /\
    m_objectMaterials (self w') = m_objectMaterials (self w) /\
    disk w' = disk w /\ garbage w' = garbage w.
Proof.
  intros Hok Hroom.
  destruct (load_step "../../Utilities/textures/pages.jpg" "pages" w Hok)
    as (w1 & Hrun1 & Hok1 & Hn1 & Ht1 & Hp1 & Hb1 & Hm1 & Hd1 & Hg1); [lia |].
  destruct (load_step "../../Utilities/textures/page.jpg" "page" w1 Hok1)
    as (w2 & Hrun2 & Hok2 & Hn2 & Ht2 & Hp2 & Hb2 & Hm2 & Hd2 & Hg2).
  { rewrite Hn1. destruct (loadable w _); lia. }
  rewrite (loadable_disk w w1) in Hrun2, Hn2, Ht2 by done.
  destruct (load_step "../../Utilities/textures/rubiks.jpg" "rubiks" w2 Hok2)
    as (w3 & Hrun3 & Hok3 & Hn3 & Ht3 & Hp3 & Hb3 & Hm3 & Hd3 & Hg3).
  { rewrite Hn2, Hn1. repeat destruct (loadable w _); lia. }
  rewrite (loadable_disk w w2) in Hrun3, Hn3, Ht3 by congruence.
  destruct (load_step "../../Utilities/textures/shadow.jpg" "shadow" w3 Hok3)
    as (w4 & Hrun4 & Hok4 & Hn4 & Ht4 & Hp4 & Hb4 & Hm4 & Hd4 & Hg4).
  { rewrite Hn3, Hn2, Hn1. repeat destruct (loadable w _); lia. }
  rewrite (loadable_disk w w3) in Hrun4, Hn4, Ht4 by congruence.
  exists (emit w4 (bind_log 0 (entries (self w4)))).
  unfold LoadSceneTextures.
  rewrite bind_run, Hrun1. cbv beta iota.
  rewrite bind_run, Hrun2. cbv beta iota.
  rewrite bind_run, Hrun3. cbv beta iota.
  rewrite bind_run, Hrun4. cbv beta iota.
  split; [by apply BindGLTextures_run |]. cbn [self emit disk garbage].
  split; [done |].
  split.
  { rewrite Hn4, Hn3, Hn2, Hn1. unfold loaded_tags, scene_textures.
    cbn [flat_map fst snd]. repeat destruct (loadable w _); cbn [app length]; lia. }
  split.
  { rewrite Ht4, Ht3, Ht2, Ht1. unfold loaded_tags, scene_textures.
    cbn [flat_map fst snd]. rewrite app_nil_r. by rewrite <- !app_assoc. }
  repeat split; congruence.
Qed.

Lemma SetupSceneLights_run w :
  m_pShaderManager (self w) = Ptr ->
  exists l, SetupSceneLights w = Ret tt (emit w l) /\ length l = 6%nat.
Proof.
  intros Hptr. eexists. unfold SetupSceneLights.
  rewrite bind_run, shader_run, Hptr.
  rewrite bind_run, shader_run. cbn [self emit]. rewrite Hptr.
  rewrite bind_run, shader_run. cbn [self emit]. rewrite Hptr.
  rewrite bind_run, shader_run. cbn [self emit]. rewrite Hptr.
  rewrite bind_run, shader_run. cbn [self emit]. rewrite Hptr.
  rewrite shader_run. cbn [self emit]. rewrite Hptr.
  rewrite !emit_emit. split; reflexivity.
Qed.

Lemma SetupSceneLights_null w :
  m_pShaderManager (self w) = NULL -> SetupSceneLights w = Crash NullDereference w.
Proof.
  intros Hnull. unfold SetupSceneLights. by rewrite bind_run, shader_run, Hnull.
Qed.

Lemma load_meshes_run w :
  m_basicMeshes (self w) = Ptr ->
  (meshes (LoadMesh PlaneMesh);;
   meshes (LoadMesh CylinderMesh);;
   meshes (LoadMesh TaperedCylinderMesh);;
   meshes (LoadMesh BoxMesh);;
   meshes (LoadMesh SphereMesh);;
   meshes (LoadMesh ConeMesh);;
   meshes (LoadMesh TorusMesh)) w
  = Ret tt (emit w [ LoadMesh PlaneMesh; LoadMesh CylinderMesh;
                     LoadMesh TaperedCylinderMesh; LoadMesh BoxMesh;
                     LoadMesh SphereMesh; LoadMesh ConeMesh; LoadMesh TorusMesh ]).
Proof.
  intros Hptr.
  rewrite bind_run, meshes_run, Hptr.
  do 5 (rewrite bind_run, meshes_run; cbn [self emit]; rewrite Hptr).
  rewrite meshes_run. cbn [self emit]. rewrite Hptr.
  rewrite !emit_emit. reflexivity.
Qed.

Lemma PrepareScene_run w :
  ready (self w) -> m_loadedTextures (self w) <= 12 ->
  exists w',
    PrepareScene w = Ret tt w' /\
    ready (self w') /\
    materials_defined (self w') = true /\
    m_loadedTextures (self w') = m_loadedTextures (self w) + Z.of_nat (length (loaded_tags w)) /\
    map TEXTURE_INFO.tag (entries (self w')) =
      map TEXTURE_INFO.tag (entries (self w)) ++ loaded_tags w /\
    m_objectMaterials (self w') = m_objectMaterials (self w) ++ scene_materials /\
    garbage w' = garbage w.
Proof.
  intros (Hptr & Hmesh & Hok) Hroom.
  destruct (LoadSceneTextures_run w Hok Hroom)
    as (w1 & Hrun1 & Hok1 & Hn1 & Ht1 & Hp1 & Hb1 & Hm1 & Hd1 & Hg1).
  pose proof (DefineObjectMaterials_run w1) as Hrun2.
  set (w2 := with_self w1 _) in Hrun2.
  destruct (SetupSceneLights_run w2) as (l & Hrun3 & _).
  { subst w2. cbn. congruence. }
  pose proof (load_meshes_run (emit w2 l)) as Hrun4.
  eexists. unfold PrepareScene.
  rewrite bind_run, Hrun1. cbv beta iota.
  rewrite bind_run, Hrun2. cbv beta iota.
  rewrite bind_run, Hrun3. cbv beta iota.
  rewrite Hrun4 by (subst w2; cbn; congruence).
  split; [reflexivity |]. subst w2. cbn [self emit with_self garbage].
  unfold ready, materials_defined, entries, table_ok in *.
  cbn [m_pShaderManager m_basicMeshes m_loadedTextures m_textureIDs m_objectMaterials].
  rewrite Hm1, length_app. cbn [length scene_materials].
  repeat split; try congruence; try tauto; try lia.
  apply Nat.ltb_lt. lia.
Qed.

(** [X18] On a scene manager with its shader manager and meshes, a sound
    table and at least four free slots, [PrepareScene] returns, whatever
    image files exist; afterwards a frame can be drawn, the five scene
    materials have been appended, and exactly the loadable ones of the four
    scene textures have been registered, in the order pages, page, rubiks,
    shadow. *)
Theorem PrepareScene_makes_ready w :
  ready (self w) -> m_loadedTextures (self w) <= 12 ->
  exists w',
    PrepareScene w = Ret tt w' /\
    ready (self w') /\
    materials_defined (self w') = true /\
    m_loadedTextures (self w') = m_loadedTextures (self w) + Z.of_nat (length (loaded_tags w)) /\
    map TEXTURE_INFO.tag (entries (self w')) =
      map TEXTURE_INFO.tag (entries (self w)) ++ loaded_tags w /\
    m_objectMaterials (self w') = m_objectMaterials (self w) ++ scene_materials.
Proof.
  intros Hready Hroom.
  destruct (PrepareScene_run w Hready Hroom) as (w' & H1 & H2 & H3 & H4 & H5 & H6 & _).
  by exists w'.
Qed.

Lemma PrepareScene_makes_ready_witness :
  exists w',
    PrepareScene (MoreExamples.world_of_two_files Examples.fresh) = Ret tt w' /\
    m_loadedTextures (self w') = 2 /\
    map TEXTURE_INFO.tag (entries (self w')) = ["pages"; "page"].
Proof.
  destruct (PrepareScene_makes_ready (MoreExamples.world_of_two_files Examples.fresh))
    as (w' & Hrun & _ & _ & Hn & Htags & _).
  - split; [reflexivity |]. split; [reflexivity |]. split; [reflexivity | cbn; lia].
  - cbn. lia.
  - exists w'. split; [exact Hrun |]. split; [exact Hn | exact Htags].
Defined.

(** [X19] After [PrepareScene] under the same conditions, [RenderScene]
    returns and draws the full frame of 34 shapes with all its material
    assignments, whichever of the image files were missing or unsupported. *)
Theorem PrepareScene_then_RenderScene w :
  ready (self w) -> m_loadedTextures (self w) <= 12 ->
  exists w1 l,
    PrepareScene w = Ret tt w1 /\
    Scene.RenderScene w1 = Ret tt (emit w1 l) /\
    labels l = Golden.frame true /\
    length (draws (labels l)) = 34%nat.
Proof.
  intros Hready Hroom.
  destruct (PrepareScene_run w Hready Hroom) as (w1 & Hrun & Hready1 & Hdef & _).
  destruct (RenderScene_labels w1 Hready1) as (l & Hframe & Hlabels).
  exists w1, l. rewrite Hdef in Hlabels.
  split; [exact Hrun |]. split; [exact Hframe |]. split; [exact Hlabels |].
  rewrite Hlabels. reflexivity.
Qed.

Lemma PrepareScene_then_RenderScene_witness :
  exists w1 l,
    PrepareScene (Examples.world_without_files Examples.fresh) = Ret tt w1 /\
    Scene.RenderScene w1 = Ret tt (emit w1 l) /\
    labels l = Golden.frame true /\
    length (draws (labels l)) = 34%nat.
Proof.
  apply (PrepareScene_then_RenderScene (Examples.world_without_files Examples.fresh)).
  - split; [reflexivity |]. split; [reflexivity |]. split; [reflexivity | cbn; lia].
  - cbn. lia.
Defined.

(** [X20] On a scene manager without shader manager (a sound table with
    four free slots), [PrepareScene] faults on the NULL pointer at the first
    light uniform: by then the textures have been loaded and the five
    materials defined, and nothing has been logged after the calls of
    [LoadSceneTextures], so no light is set and no mesh is loaded. *)
Theorem PrepareScene_without_shader_manager w :
  m_pShaderManager (self w) = NULL ->
  table_ok (self w) -> m_loadedTextures (self w) <= 12 ->
  exists w1 w',
    LoadSceneTextures w = Ret tt w1 /\
    PrepareScene w = Crash NullDereference w' /\
    calls w' = calls w1 /\
    m_loadedTextures (self w') = m_loadedTextures (self w) + Z.of_nat (length (loaded_tags w)) /\
    m_objectMaterials (self w') = m_objectMaterials (self w) ++ scene_materials.
Proof.
  intros Hnull Hok Hroom.
  destruct (LoadSceneTextures_run w Hok Hroom)
    as (w1 & Hrun1 & Hok1 & Hn1 & Ht1 & Hp1 & Hb1 & Hm1 & Hd1 & Hg1).
  pose proof (DefineObjectMaterials_run w1) as Hrun2.
  set (w2 := with_self w1 _) in Hrun2.
  exists w1, w2. split; [exact Hrun1 |]. unfold PrepareScene.
  rewrite bind_run, Hrun1. cbv beta iota.
  rewrite bind_run, Hrun2. cbv beta iota.
  rewrite bind_run, SetupSceneLights_null by (subst w2; cbn; congruence).
  split; [reflexivity |]. subst w2. cbn [self with_self calls m_loadedTextures m_objectMaterials].
  split; [done |]. split; [done | by rewrite Hm1].
Qed.

Lemma PrepareScene_without_shader_manager_witness :
  exists w1 w',
    LoadSceneTextures (Examples.world (SceneManager_new NULL)) = Ret tt w1 /\
    PrepareScene (Examples.world (SceneManager_new NULL)) = Crash NullDereference w' /\
    calls w' = calls w1 /\
    m_loadedTextures (self w') = 4.
Proof.
  destruct (PrepareScene_without_shader_manager (Examples.world (SceneManager_new NULL)))
    as (w1 & w' & Hload & Hrun & Hcalls & Hn & _).
  - reflexivity.
  - split; [reflexivity | cbn; lia].
  - cbn. lia.
  - exists w1, w'. split; [exact Hload |]. split; [exact Hrun |]. split; [exact Hcalls |].
    exact Hn.
Defined.

End MorePrepareFacts.

(** ** Further facts about lookups and frames *)

Section MoreLookupFacts.

(** [X21] On a newly constructed scene manager every lookup comes back
    empty, whatever the tag: [FindTextureID] and [FindTextureSlot] return -1
    (also for "/0", the tag the constructor writes into the sixteen unused
    entries, which are never scanned) and [FindMaterial] returns [false]
    with the output material unchanged. *)
Theorem lookups_after_construction pShaderManager w t material :
  exists w',
    constructor pShaderManager w = Ret tt w' /\
    table_ok (self w') /\
    FindTextureID t (self w') = Ok (-1) /\
    FindTextureSlot t (self w') = Ok (-1) /\
    FindTextureID "/0" (self w') = Ok (-1) /\
    FindMaterial t material (self w') = (false, material).
Proof.
  eexists. split; [reflexivity |]. cbn [self with_self].
  pose proof (table_ok_new pShaderManager) as Hok.
  split; [exact Hok |].
  rewrite !FindTextureID_scan, FindTextureSlot_scan by done.
  repeat split.
Qed.

(** [X22] [FindMaterial] never changes the [tag] of the output material,
    whether it finds an entry or not. *)
Theorem FindMaterial_keeps_output_tag s t material :
  OBJECT_MATERIAL.tag (snd (FindMaterial t material s)) = OBJECT_MATERIAL.tag material.
Proof.
  destruct (m_objectMaterials s) as [| m ms] eqn:E.
  - unfold FindMaterial. by rewrite E.
  - rewrite FindMaterial_scan by (rewrite E; discriminate).
    cbn [snd]. by destruct (list_find _ _) as [[i e] |].
Qed.

(** [X23] A frame can be drawn again: [RenderScene] leaves the object as
    it is, and a second call right after the first logs exactly the same
    calls with exactly the same values. The positions that [rotate] updates
    in place are locals of the call, so nothing accumulates from frame to
    frame. *)
Theorem RenderScene_repeats w :
  ready (self w) ->
  exists l,
    Scene.RenderScene w = Ret tt (emit w l) /\
    Scene.RenderScene (emit w l) = Ret tt (emit (emit w l) l) /\
    self (emit (emit w l) l) = self w.
Proof.
  intros Hready.
  destruct (RenderScene_traces (self w) (garbage w) Hready) as (l & Hl & _).
  exists l. split; [by apply Hl |]. split; [by apply Hl | done].
Qed.

Lemma RenderScene_repeats_witness :
  exists l,
    Scene.RenderScene Examples.prepared = Ret tt (emit Examples.prepared l) /\
    Scene.RenderScene (emit Examples.prepared l)
      = Ret tt (emit (emit Examples.prepared l) l).
Proof.
  destruct (RenderScene_repeats Examples.prepared) as (l & H1 & H2 & _).
  - split; [vm_compute; reflexivity |]. split; [vm_compute; reflexivity |].
    split; [vm_compute; reflexivity |]. vm_compute. split; discriminate.
  - exists l. split; [exact H1 | exact H2].
Defined.

End MoreLookupFacts.
